(** * seedling: the configuration submission handler

    A shallow embedding of [internal/handler/config/create.go] and of the
    parts of its collaborators that the handler's contract depends on.

    - [UUID]: the correlation identifier, after [github.com/google/uuid].
    - [UTF8], [JSON], [ResponseJSON]: the wire form of [Response], after
      [encoding/json].
    - [codes], [attribute], [http]: what the handler uses of OpenTelemetry
      and of [net/http].
    - [Create], [NewHandler], [ServeHTTP], [writeResponse]: the handler,
      written in a small monad.  A run returns the world it leaves behind
      and, in order, every call it made on the tracer, the span, the
      random source, the processors and the response writer.
    - [Test]: the mock processor and the requests of [create_test.go].

    The definitions come first; the facts about them follow, then the
    contract of the handler, and last the tests and the contract applied
    to their requests. *)

From Stdlib Require Import ZArith NArith Lia.
From Stdlib Require Import Ascii String.
From Stdlib.Strings Require Import Byte.
From stdpp Require Import base option list strings gmap.

Local Open Scope string_scope.

(* ===================================================================== *)
(** * Correlation identifiers *)
(* ===================================================================== *)

Module UUID.

(** [type UUID [16]byte]: an array of exactly sixteen bytes. *)
Inductive UUID : Type :=
  MkUUID (b0 b1 b2 b3 b4 b5 b6 b7 b8 b9 b10 b11 b12 b13 b14 b15 : byte).

Definition to_bytes (u : UUID) : list byte :=
  match u with
  | MkUUID b0 b1 b2 b3 b4 b5 b6 b7 b8 b9 b10 b11 b12 b13 b14 b15 =>
      [b0; b1; b2; b3; b4; b5; b6; b7; b8; b9; b10; b11; b12; b13; b14; b15]
  end.

Definition of_bytes (l : list byte) : option UUID :=
  match l with
  | [b0; b1; b2; b3; b4; b5; b6; b7; b8; b9; b10; b11; b12; b13; b14; b15] =>
      Some (MkUUID b0 b1 b2 b3 b4 b5 b6 b7 b8 b9 b10 b11 b12 b13 b14 b15)
  | _ => None
  end.

(** [var Nil UUID]: the zero value, all sixteen bytes zero. *)
Definition Nil : UUID :=
  MkUUID x00 x00 x00 x00 x00 x00 x00 x00 x00 x00 x00 x00 x00 x00 x00 x00.

(** Byte arithmetic, through [N] with the result cut back to eight bits. *)
Definition byte_of_N (n : N) : byte :=
  match Byte.of_N (N.land n 255) with
  | Some b => b
  | None => x00
  end.

Definition band (a b : byte) : byte :=
  byte_of_N (N.land (Byte.to_N a) (Byte.to_N b)).

Definition bor (a b : byte) : byte :=
  byte_of_N (N.lor (Byte.to_N a) (Byte.to_N b)).

(** [NewRandomFromReader], after the sixteen bytes have been read:
<<
    uuid[6] = (uuid[6] & 0x0f) | 0x40 // Version 4
    uuid[8] = (uuid[8] & 0x3f) | 0x80 // Variant is 10
>>
    The argument is what the random source delivered.  [uuid.New] panics
    when the source fails; a failing source is outside this model. *)
Definition New (rnd : UUID) : UUID :=
  match rnd with
  | MkUUID b0 b1 b2 b3 b4 b5 b6 b7 b8 b9 b10 b11 b12 b13 b14 b15 =>
      MkUUID b0 b1 b2 b3 b4 b5 (bor (band b6 x0f) x40) b7
             (bor (band b8 x3f) x80) b9 b10 b11 b12 b13 b14 b15
  end.

(** [encoding/hex]: [const hextable = "0123456789abcdef"]. *)
Definition hextable : string := "0123456789abcdef".

Definition hexdigit (n : N) : ascii :=
  match String.get (N.to_nat n) hextable with
  | Some c => c
  | None => "0"%char
  end.

(** [dst[j] = hextable[v>>4]] and [dst[j+1] = hextable[v&0x0f]]. *)
Definition hex_hi (v : byte) : ascii := hexdigit (N.shiftr (Byte.to_N v) 4).
Definition hex_lo (v : byte) : ascii := hexdigit (N.land (Byte.to_N v) 15).

Fixpoint hex_Encode (src : list byte) : string :=
  match src with
  | [] => EmptyString
  | v :: rest => String (hex_hi v) (String (hex_lo v) (hex_Encode rest))
  end.

(** [encodeHex]: the groups of 4, 2, 2, 2 and 6 bytes, hyphens in between. *)
Definition encodeHex (u : UUID) : string :=
  let b := to_bytes u in
  hex_Encode (take 4 b) ++ "-" ++
  hex_Encode (take 2 (drop 4 b)) ++ "-" ++
  hex_Encode (take 2 (drop 6 b)) ++ "-" ++
  hex_Encode (take 2 (drop 8 b)) ++ "-" ++
  hex_Encode (drop 10 b).

(** [func (uuid UUID) String() string]. *)
Definition String (u : UUID) : string := encodeHex u.

(** [func (uuid UUID) MarshalText() ([]byte, error)]: never an error. *)
Definition MarshalText (u : UUID) : string := encodeHex u.

(** [xvalues]: the value of a hexadecimal digit, 255 for any other byte. *)
Definition xvalues (c : ascii) : N :=
  let n := N_of_ascii c in
  if (48 <=? n)%N && (n <=? 57)%N then (n - 48)%N
  else if (65 <=? n)%N && (n <=? 70)%N then (n - 55)%N
  else if (97 <=? n)%N && (n <=? 102)%N then (n - 87)%N
  else 255%N.

(** [xtob]: two hexadecimal digits to a byte; [None] when [ok] is false. *)
Definition xtob (x1 x2 : ascii) : option byte :=
  let b1 := xvalues x1 in
  let b2 := xvalues x2 in
  if (b1 =? 255)%N || (b2 =? 255)%N then None
  else Some (byte_of_N (N.lor (N.shiftl b1 4) b2)).

(** [s[i]]; indexing is only used below the checked length. *)
Definition at_ (s : string) (i : nat) : ascii :=
  match String.get i s with
  | Some c => c
  | None => zero
  end.

Fixpoint xtob_all (s : string) (offsets : list nat) : option (list byte) :=
  match offsets with
  | [] => Some []
  | x :: rest =>
      match xtob (at_ s x) (at_ s (S x)) with
      | None => None
      | Some v =>
          match xtob_all s rest with
          | None => None
          | Some vs => Some (v :: vs)
          end
      end
  end.

Definition ascii_lower (c : ascii) : ascii :=
  let n := N_of_ascii c in
  if (65 <=? n)%N && (n <=? 90)%N then ascii_of_N (n + 32) else c.

Fixpoint string_lower (s : string) : string :=
  match s with
  | EmptyString => EmptyString
  | String.String c s' => String.String (ascii_lower c) (string_lower s')
  end.

(** The canonical form [xxxxxxxx-xxxx-xxxx-xxxx-xxxxxxxxxxxx]. *)
Definition parse_canonical (s : string) : option UUID :=
  if negb (Ascii.eqb (at_ s 8) "-") || negb (Ascii.eqb (at_ s 13) "-")
     || negb (Ascii.eqb (at_ s 18) "-") || negb (Ascii.eqb (at_ s 23) "-")
  then None
  else
    match xtob_all s [0; 2; 4; 6; 9; 11; 14; 16; 19; 21; 24; 26; 28; 30; 32; 34]%nat with
    | Some l => of_bytes l
    | None => None
    end.

(** [func Parse(s string) (UUID, error)]: selected by the length of [s];
    [None] stands for every error return. *)
Definition Parse (s : string) : option UUID :=
  match String.length s with
  | 36%nat => parse_canonical s
  | 45%nat =>
      if String.eqb (string_lower (substring 0 9 s)) "urn:uuid:"
      then parse_canonical (substring 9 36 s)
      else None
  | 38%nat => parse_canonical (substring 1 37 s)
  | 32%nat =>
      match xtob_all s (map (fun i => 2 * i)%nat (seq 0 16)) with
      | Some l => of_bytes l
      | None => None
      end
  | _ => None
  end.

(** [func (uuid *UUID) UnmarshalText(data []byte) error], through
    [ParseBytes], which reads the same forms as [Parse]. *)
Definition UnmarshalText (data : string) : option UUID := Parse data.

End UUID.

(* ===================================================================== *)
(** * UTF-8, as far as [encoding/json] depends on it *)
(* ===================================================================== *)

Module UTF8.

Definition code (c : ascii) : N := N_of_ascii c.

Definition between (lo hi n : N) : bool := (lo <=? n)%N && (n <=? hi)%N.

(** A continuation byte, [10xxxxxx]. *)
Definition cont (c : ascii) : bool := between 128 191 (code c).

(** The range [unicode/utf8] accepts for the second byte after lead [b0]. *)
Definition second_ok (b0 : N) (c1 : ascii) : bool :=
  if (b0 =? 224)%N then between 160 191 (code c1)
  else if (b0 =? 237)%N then between 128 159 (code c1)
  else if (b0 =? 240)%N then between 144 191 (code c1)
  else if (b0 =? 244)%N then between 128 143 (code c1)
  else cont c1.

(** The size that [utf8.DecodeRuneInString] reports for the encoding at
    the head of [s]; [0] stands for its [(RuneError, 1)], returned for an
    invalid or truncated encoding. *)
Definition size (s : string) : nat :=
  match s with
  | EmptyString => 0
  | String c0 t0 =>
      let b0 := code c0 in
      if (b0 <? 128)%N then 1
      else if (b0 <? 194)%N || (244 <? b0)%N then 0
      else
        match t0 with
        | EmptyString => 0
        | String c1 t1 =>
            if negb (second_ok b0 c1) then 0
            else if (b0 <? 224)%N then 2
            else
              match t1 with
              | EmptyString => 0
              | String c2 t2 =>
                  if negb (cont c2) then 0
                  else if (b0 <? 240)%N then 3
                  else
                    match t2 with
                    | EmptyString => 0
                    | String c3 _ => if cont c3 then 4 else 0
                    end
              end
        end
  end.

Definition chr (n : N) : ascii := ascii_of_N n.

(** The quotation mark, byte 34. *)
Definition dquote : ascii := "034"%char.

(** U+FFFD, the replacement character, encoded. *)
Definition replacement : string :=
  String (chr 239) (String (chr 191) (String (chr 189) EmptyString)).

(** [utf8.EncodeRune]: surrogates and values past U+10FFFF become U+FFFD. *)
Definition EncodeRune (r : N) : string :=
  let low6 (n : N) := chr (N.lor 128 (N.land n 63)) in
  if (r <? 128)%N then String (chr r) EmptyString
  else if (r <? 2048)%N then
    String (chr (N.lor 192 (N.shiftr r 6))) (String (low6 r) EmptyString)
  else if between 55296 57343 r || (1114111 <? r)%N then replacement
  else if (r <? 65536)%N then
    String (chr (N.lor 224 (N.shiftr r 12)))
      (String (low6 (N.shiftr r 6)) (String (low6 r) EmptyString))
  else
    String (chr (N.lor 240 (N.shiftr r 18)))
      (String (low6 (N.shiftr r 12))
         (String (low6 (N.shiftr r 6)) (String (low6 r) EmptyString))).

End UTF8.

(** [s] between quotation marks. *)
Definition quoted (s : string) : string :=
  String UTF8.dquote (s ++ String UTF8.dquote EmptyString).

(* ===================================================================== *)
(** * JSON text *)
(* ===================================================================== *)

Module JSON.

Import UTF8.

(** ** Writing strings: [appendString] with [escapeHTML] set *)

(** [htmlSafeSet]: the ASCII bytes written as they are. *)
Definition htmlSafe (c : ascii) : bool :=
  between 32 127 (code c)
  && negb (Ascii.eqb c dquote) && negb (Ascii.eqb c "\")
  && negb (Ascii.eqb c "<") && negb (Ascii.eqb c ">") && negb (Ascii.eqb c "&").

(** The escape written for an ASCII byte outside [htmlSafeSet]. *)
Definition escape_ascii (c : ascii) : string :=
  if Ascii.eqb c "\" || Ascii.eqb c dquote then String "\" (String c EmptyString)
  else if (code c =? 8)%N then "\b"
  else if (code c =? 12)%N then "\f"
  else if (code c =? 10)%N then "\n"
  else if (code c =? 13)%N then "\r"
  else if (code c =? 9)%N then "\t"
  else
    String "\" (String "u" (String "0" (String "0"
      (String (UUID.hexdigit (N.shiftr (code c) 4))
         (String (UUID.hexdigit (N.land (code c) 15)) EmptyString))))).

(** Is the head of [s] the encoding [E2 80 A8] or [E2 80 A9]
    (U+2028, U+2029)?  The result is the last hexadecimal digit. *)
Definition line_separator (s : string) : option ascii :=
  match s with
  | String c0 (String c1 (String c2 _)) =>
      if (code c0 =? 226)%N && (code c1 =? 128)%N then
        if (code c2 =? 168)%N then Some "8"%char
        else if (code c2 =? 169)%N then Some "9"%char
        else None
      else None
  | _ => None
  end.

(** The body of [appendString], byte by byte.  [copy] and [skip] count the
    bytes of a multi-byte encoding already decided on: the next [copy]
    bytes are written unchanged, the next [skip] bytes are dropped. *)
Fixpoint escape (copy skip : nat) (s : string) : string :=
  match s with
  | EmptyString => EmptyString
  | String c t =>
      match copy, skip with
      | S k, _ => String c (escape k skip t)
      | O, S k => escape O k t
      | O, O =>
          if (code c <? 128)%N then
            if htmlSafe c then String c (escape O O t)
            else escape_ascii c ++ escape O O t
          else
            match size s with
            | O => "\ufffd" ++ escape O O t
            | S k =>
                match line_separator s with
                | Some d => "\u202" ++ String d (escape O k t)
                | None => String c (escape k O t)
                end
            end
      end
  end.

Definition appendString (src : string) : string :=
  String dquote (escape 0 0 src ++ String dquote EmptyString).

(** ** Reading: the scanner *)

Inductive token : Type :=
| TLBrace | TRBrace | TLBracket | TRBracket | TColon | TComma
| TString (raw : string)   (** the literal between its quotes, escapes kept *)
| TNumber
| TTrue | TFalse | TNull.

Definition is_space (c : ascii) : bool :=
  Ascii.eqb c " " || (code c =? 9)%N || (code c =? 13)%N || (code c =? 10)%N.

Definition is_digit (c : ascii) : bool := between 48 57 (code c).

Definition is_hex (c : ascii) : bool :=
  is_digit c || between 97 102 (code c) || between 65 70 (code c).

(** The states of the scanner inside a number literal. *)
Inductive numstate : Type :=
| stateNeg | state0 | state1 | stateDot | stateDot0
| stateE | stateESign | stateE0.

(** One byte inside a number: the next state, or [None] when the byte
    does not continue the literal. *)
Definition num_step (st : numstate) (c : ascii) : option numstate :=
  match st with
  | stateNeg =>
      if Ascii.eqb c "0" then Some state0
      else if is_digit c then Some state1 else None
  | state1 =>
      if is_digit c then Some state1
      else if Ascii.eqb c "." then Some stateDot
      else if Ascii.eqb c "e" || Ascii.eqb c "E" then Some stateE
      else None
  | state0 =>
      if Ascii.eqb c "." then Some stateDot
      else if Ascii.eqb c "e" || Ascii.eqb c "E" then Some stateE
      else None
  | stateDot => if is_digit c then Some stateDot0 else None
  | stateDot0 =>
      if is_digit c then Some stateDot0
      else if Ascii.eqb c "e" || Ascii.eqb c "E" then Some stateE
      else None
  | stateE =>
      if Ascii.eqb c "+" || Ascii.eqb c "-" then Some stateESign
      else if is_digit c then Some stateE0 else None
  | stateESign => if is_digit c then Some stateE0 else None
  | stateE0 => if is_digit c then Some stateE0 else None
  end.

(** The states in which a number literal may end. *)
Definition num_final (st : numstate) : bool :=
  match st with
  | state0 | state1 | stateDot0 | stateE0 => true
  | _ => false
  end.

Definition cons_raw (c : ascii) (r : option (string * list token))
  : option (string * list token) :=
  match r with
  | Some (raw, ts) => Some (String c raw, ts)
  | None => None
  end.

Definition cons_token (t : token) (r : option (list token))
  : option (list token) :=
  match r with
  | Some ts => Some (t :: ts)
  | None => None
  end.

(** The scanner, as three mutually recursive readers of the input:
    between tokens ([scan]), inside a string literal ([scan_string], which
    returns the raw literal and the tokens after it) and inside a number
    ([scan_number]).  [None] is a syntax error. *)
Fixpoint scan (s : string) : option (list token) :=
  match s with
  | EmptyString => Some []
  | String c t =>
      if is_space c then scan t
      else if Ascii.eqb c "{" then cons_token TLBrace (scan t)
      else if Ascii.eqb c "}" then cons_token TRBrace (scan t)
      else if Ascii.eqb c "[" then cons_token TLBracket (scan t)
      else if Ascii.eqb c "]" then cons_token TRBracket (scan t)
      else if Ascii.eqb c ":" then cons_token TColon (scan t)
      else if Ascii.eqb c "," then cons_token TComma (scan t)
      else if Ascii.eqb c dquote then
        match scan_string t with
        | Some (raw, ts) => Some (TString raw :: ts)
        | None => None
        end
      else if Ascii.eqb c "-" then scan_number stateNeg t
      else if Ascii.eqb c "0" then scan_number state0 t
      else if is_digit c then scan_number state1 t
      else if Ascii.eqb c "t" then
        match t with
        | String c1 (String c2 (String c3 t')) =>
            if Ascii.eqb c1 "r" && Ascii.eqb c2 "u" && Ascii.eqb c3 "e"
            then cons_token TTrue (scan t') else None
        | _ => None
        end
      else if Ascii.eqb c "f" then
        match t with
        | String c1 (String c2 (String c3 (String c4 t'))) =>
            if Ascii.eqb c1 "a" && Ascii.eqb c2 "l" && Ascii.eqb c3 "s"
               && Ascii.eqb c4 "e"
            then cons_token TFalse (scan t') else None
        | _ => None
        end
      else if Ascii.eqb c "n" then
        match t with
        | String c1 (String c2 (String c3 t')) =>
            if Ascii.eqb c1 "u" && Ascii.eqb c2 "l" && Ascii.eqb c3 "l"
            then cons_token TNull (scan t') else None
        | _ => None
        end
      else None
  end
with scan_string (s : string) : option (string * list token) :=
  match s with
  | EmptyString => None
  | String c t =>
      if Ascii.eqb c dquote then
        match scan t with
        | Some ts => Some (EmptyString, ts)
        | None => None
        end
      else if Ascii.eqb c "\" then
        match t with
        | EmptyString => None
        | String e t1 =>
            if Ascii.eqb e "u" then
              match t1 with
              | String h1 (String h2 (String h3 (String h4 t5))) =>
                  if is_hex h1 && is_hex h2 && is_hex h3 && is_hex h4 then
                    cons_raw c (cons_raw e (cons_raw h1 (cons_raw h2
                      (cons_raw h3 (cons_raw h4 (scan_string t5))))))
                  else None
              | _ => None
              end
            else if Ascii.eqb e "b" || Ascii.eqb e "f" || Ascii.eqb e "n"
                    || Ascii.eqb e "r" || Ascii.eqb e "t" || Ascii.eqb e "\"
                    || Ascii.eqb e "/" || Ascii.eqb e dquote
            then cons_raw c (cons_raw e (scan_string t1))
            else None
        end
      else if (code c <? 32)%N then None
      else cons_raw c (scan_string t)
  end
with scan_number (st : numstate) (s : string) : option (list token) :=
  match s with
  | EmptyString => if num_final st then Some [TNumber] else None
  | String c t =>
      match num_step st c with
      | Some st' => scan_number st' t
      | None =>
          if negb (num_final st) then None
          else if is_space c then cons_token TNumber (scan t)
          else if Ascii.eqb c "," then
            cons_token TNumber (cons_token TComma (scan t))
          else if Ascii.eqb c "}" then
            cons_token TNumber (cons_token TRBrace (scan t))
          else if Ascii.eqb c "]" then
            cons_token TNumber (cons_token TRBracket (scan t))
          else None
      end
  end.

(** ** Reading: values *)

#[local] Unset Elimination Schemes.
Inductive value : Type :=
| VNull
| VBool (b : bool)
| VString (raw : string)
| VNumber
| VArray (elems : list value)
| VObject (members : list (string * value)).
#[local] Set Elimination Schemes.

(** [maxNestingDepth] of the scanner. *)
Definition maxNestingDepth : N := 10000.

(** The grammar of values over the tokens.  [fuel] bounds the recursion;
    every call consumes a token first, so one more than the number of
    tokens is always enough ([parse] below).  [depth] is the number of
    arrays and objects currently open. *)
Fixpoint parse_value (fuel : nat) (depth : N) (ts : list token)
  : option (value * list token) :=
  match fuel with
  | O => None
  | S n =>
      match ts with
      | TNull :: r => Some (VNull, r)
      | TTrue :: r => Some (VBool true, r)
      | TFalse :: r => Some (VBool false, r)
      | TNumber :: r => Some (VNumber, r)
      | TString raw :: r => Some (VString raw, r)
      | TLBrace :: r =>
          if (maxNestingDepth <? depth + 1)%N then None
          else
            match r with
            | TRBrace :: r' => Some (VObject [], r')
            | _ =>
                match parse_members n (depth + 1) r with
                | Some (m, r') => Some (VObject m, r')
                | None => None
                end
            end
      | TLBracket :: r =>
          if (maxNestingDepth <? depth + 1)%N then None
          else
            match r with
            | TRBracket :: r' => Some (VArray [], r')
            | _ =>
                match parse_elements n (depth + 1) r with
                | Some (l, r') => Some (VArray l, r')
                | None => None
                end
            end
      | _ => None
      end
  end
with parse_members (fuel : nat) (depth : N) (ts : list token)
  : option (list (string * value) * list token) :=
  match fuel with
  | O => None
  | S n =>
      match ts with
      | TString key :: TColon :: r =>
          match parse_value n depth r with
          | Some (v, TRBrace :: r') => Some ([(key, v)], r')
          | Some (v, TComma :: r') =>
              match parse_members n depth r' with
              | Some (m, r'') => Some ((key, v) :: m, r'')
              | None => None
              end
          | _ => None
          end
      | _ => None
      end
  end
with parse_elements (fuel : nat) (depth : N) (ts : list token)
  : option (list value * list token) :=
  match fuel with
  | O => None
  | S n =>
      match parse_value n depth ts with
      | Some (v, TRBracket :: r') => Some ([v], r')
      | Some (v, TComma :: r') =>
          match parse_elements n depth r' with
          | Some (l, r'') => Some (v :: l, r'')
          | None => None
          end
      | _ => None
      end
  end.

(** [checkValid] and the reading of the one top-level value: the whole
    input is one JSON value, white space around it allowed. *)
Definition parse (data : string) : option value :=
  match scan data with
  | Some ts =>
      match parse_value (S (length ts)) 0 ts with
      | Some (v, []) => Some v
      | _ => None
      end
  | None => None
  end.

(** ** Reading strings: [unquote] *)

Definition hexval (c : ascii) : N :=
  let n := code c in
  if between 48 57 n then (n - 48)%N
  else if between 97 102 n then (n - 87)%N
  else (n - 55)%N.

(** [getu4] on four hexadecimal digits. *)
Definition getu4 (h1 h2 h3 h4 : ascii) : option N :=
  if is_hex h1 && is_hex h2 && is_hex h3 && is_hex h4 then
    Some (N.lor (N.shiftl (hexval h1) 12)
            (N.lor (N.shiftl (hexval h2) 8)
               (N.lor (N.shiftl (hexval h3) 4) (hexval h4))))
  else None.

(** [utf16.DecodeRune]: a high and a low surrogate combined. *)
Definition decode_surrogates (r1 r2 : N) : option N :=
  if between 55296 56319 r1 && between 56320 57343 r2 then
    Some (N.lor (N.shiftl (r1 - 55296) 10) (r2 - 56320) + 65536)%N
  else None.

Definition simple_escape (e : ascii) : option ascii :=
  if Ascii.eqb e dquote || Ascii.eqb e "\" || Ascii.eqb e "/" then Some e
  else if Ascii.eqb e "b" then Some (chr 8)
  else if Ascii.eqb e "f" then Some (chr 12)
  else if Ascii.eqb e "n" then Some (chr 10)
  else if Ascii.eqb e "r" then Some (chr 13)
  else if Ascii.eqb e "t" then Some (chr 9)
  else None.

Definition prepend (p : string) (r : option string) : option string :=
  match r with
  | Some s => Some (p ++ s)
  | None => None
  end.

(** [unquoteBytes] on the literal between its quotes.  Escapes are
    resolved; text that is not well-formed UTF-8 is coerced, byte by byte,
    to U+FFFD.  [copy] counts the continuation bytes of an encoding already
    found well-formed. *)
Fixpoint unquote (copy : nat) (raw : string) : option string :=
  match raw with
  | EmptyString => Some EmptyString
  | String c t =>
      match copy with
      | S k => prepend (String c EmptyString) (unquote k t)
      | O =>
          if Ascii.eqb c "\" then
            match t with
            | EmptyString => None
            | String e t1 =>
                if Ascii.eqb e "u" then
                  match t1 with
                  | String h1 (String h2 (String h3 (String h4 t5))) =>
                      match getu4 h1 h2 h3 h4 with
                      | None => None
                      | Some rr =>
                          if between 55296 57343 rr then
                            match t5 with
                            | String b (String u (String l1 (String l2
                                (String l3 (String l4 t11))))) =>
                                match
                                  (if Ascii.eqb b "\" && Ascii.eqb u "u"
                                   then getu4 l1 l2 l3 l4 else None)
                                with
                                | Some rr1 =>
                                    match decode_surrogates rr rr1 with
                                    | Some dec =>
                                        prepend (EncodeRune dec) (unquote O t11)
                                    | None =>
                                        prepend replacement (unquote O t5)
                                    end
                                | None => prepend replacement (unquote O t5)
                                end
                            | _ => prepend replacement (unquote O t5)
                            end
                          else prepend (EncodeRune rr) (unquote O t5)
                      end
                  | _ => None
                  end
                else
                  match simple_escape e with
                  | Some ch => prepend (String ch EmptyString) (unquote O t1)
                  | None => None
                  end
            end
          else if Ascii.eqb c dquote || (code c <? 32)%N then None
          else if (code c <? 128)%N then
            prepend (String c EmptyString) (unquote O t)
          else
            match size raw with
            | O => prepend replacement (unquote O t)
            | S k => prepend (String c EmptyString) (unquote k t)
            end
      end
  end.

(** ** Matching an object key with a field name *)

(** [foldName], as far as it can make a key equal to an ASCII name: ASCII
    letters to upper case, and the two letters outside ASCII whose case
    orbit contains an ASCII letter, U+017F (long s) and U+212A (Kelvin). *)
Fixpoint foldName (s : string) : string :=
  match s with
  | EmptyString => EmptyString
  | String c t =>
      if between 97 122 (code c) then String (chr (code c - 32)) (foldName t)
      else
        match t with
        | String c1 t1 =>
            if (code c =? 197)%N && (code c1 =? 191)%N
            then String "S" (foldName t1)
            else
              match t1 with
              | String c2 t2 =>
                  if (code c =? 226)%N && (code c1 =? 132)%N
                     && (code c2 =? 170)%N
                  then String "K" (foldName t2)
                  else String c (foldName t)
              | EmptyString => String c (foldName t)
              end
        | EmptyString => String c EmptyString
        end
  end.

(** The field a key selects among [names]: an exact match first, a match
    under [foldName] otherwise. *)
Definition find_field {F : Type} (names : list (string * F)) (key : string)
  : option F :=
  match List.find (fun nf => String.eqb (fst nf) key) names with
  | Some nf => Some (snd nf)
  | None =>
      match List.find
              (fun nf => String.eqb (foldName (fst nf)) (foldName key)) names
      with
      | Some nf => Some (snd nf)
      | None => None
      end
  end.

End JSON.

(* ===================================================================== *)
(** * Package [config]: the response envelope and its wire form *)
(* ===================================================================== *)

(** [type Response struct]: the three fields, none tagged [omitempty]. *)
Record Response : Type := mkResponse {
  Success : bool;      (** [json:"success"] *)
  Message : string;    (** [json:"message"] *)
  ID : UUID.UUID       (** [json:"id"] *)
}.

(** The zero value of the struct. *)
Definition zeroResponse : Response :=
  {| Success := false; Message := EmptyString; ID := UUID.Nil |}.

(** A Go result: a value, or a non-nil [error] (its text). *)
Inductive result (A : Type) : Type :=
| Ok (a : A)
| Err (e : string).
Arguments Ok {A} a.
Arguments Err {A} e.

Module ResponseJSON.

Import JSON.

Definition encode_bool (b : bool) : string := if b then "true" else "false".

(** The encoder [encoding/json] derives for [Response]: the fields in the
    order of declaration, each under its tag name; a [bool] as a literal,
    a [string] through [appendString], the [uuid.UUID] through its
    [MarshalText] and [appendString]. *)
Definition encode (resp : Response) : string :=
  "{" ++ appendString "success" ++ ":" ++ encode_bool (Success resp) ++
  "," ++ appendString "message" ++ ":" ++ appendString (Message resp) ++
  "," ++ appendString "id" ++ ":" ++ appendString (UUID.MarshalText (ID resp)) ++
  "}".

(** [json.Marshal(resp)].  Encoding a [Response] has no failing step:
    [MarshalText] of a [uuid.UUID] never returns an error. *)
Definition Marshal (resp : Response) : result string := Ok (encode resp).

Inductive field : Type := FSuccess | FMessage | FID.

Definition fields : list (string * field) :=
  [("success", FSuccess); ("message", FMessage); ("id", FID)].

(** Storing one member value into its field.  [null] leaves the field as
    it is; a value of another JSON type is an [UnmarshalTypeError]. *)
Definition store (f : field) (v : value) (resp : Response) : option Response :=
  match f, v with
  | _, VNull => Some resp
  | FSuccess, VBool b =>
      Some {| Success := b; Message := Message resp; ID := ID resp |}
  | FMessage, VString raw =>
      match unquote 0 raw with
      | Some s => Some {| Success := Success resp; Message := s; ID := ID resp |}
      | None => None
      end
  | FID, VString raw =>
      match unquote 0 raw with
      | Some s =>
          match UUID.UnmarshalText s with
          | Some u =>
              Some {| Success := Success resp; Message := Message resp; ID := u |}
          | None => None
          end
      | None => None
      end
  | _, _ => None
  end.

(** The members of an object, in order; a key that selects no field is
    skipped with its value, a repeated key stores again. *)
Fixpoint object (members : list (string * value)) (resp : Response)
  : option Response :=
  match members with
  | [] => Some resp
  | (rawkey, v) :: rest =>
      match unquote 0 rawkey with
      | None => None
      | Some key =>
          match find_field fields key with
          | Some f =>
              match store f v resp with
              | Some resp' => object rest resp'
              | None => None
              end
          | None => object rest resp
          end
      end
  end.

(** [json.Unmarshal(data, &resp)]: the value [resp] holds afterwards, or
    [None] when [Unmarshal] returns an error. *)
Definition Unmarshal (data : string) (resp : Response) : option Response :=
  match parse data with
  | Some (VObject members) => object members resp
  | Some VNull => Some resp
  | _ => None
  end.

End ResponseJSON.

(* ===================================================================== *)
(** * The collaborators of the handler *)
(* ===================================================================== *)

(** [go.opentelemetry.io/otel/codes]. *)
Module codes.
Inductive Code : Type := Unset | Error | Ok.
End codes.

(** [go.opentelemetry.io/otel/attribute]. *)
Module attribute.
Inductive Value : Type :=
| BoolValue (b : bool)
| StringValue (s : string).

Record KeyValue : Type := mkKeyValue { Key : string; Value_ : Value }.

Definition String (k v : string) : KeyValue := mkKeyValue k (StringValue v).
Definition Bool (k : string) (v : bool) : KeyValue := mkKeyValue k (BoolValue v).
(** [Stringer(k, v)] holds [v.String()]; the handler passes a UUID. *)
Definition Stringer (k : string) (v : UUID.UUID) : KeyValue :=
  mkKeyValue k (StringValue (UUID.String v)).
End attribute.

(** A tracer, known by its instrumentation name. *)
Definition Tracer : Type := string.

(** [otel.Tracer(name)]. *)
Definition otel_Tracer (name : string) : Tracer := name.

(** [context.Context]: the context a request arrives with, or a context
  derived from one by starting a span. *)
Inductive Context : Type :=
| RequestContext (n : nat)
| WithSpan (parent : Context) (t : Tracer) (spanName : string).

Record Span : Type := mkSpan { span_tracer : Tracer; span_name : string }.

(** [net/http]. *)
Module http.
Definition StatusOK : Z := 200.
Definition StatusBadRequest : Z := 400.
Definition StatusMethodNotAllowed : Z := 405.
Definition StatusInternalServerError : Z := 500.

(** [http.Header]: canonical key to the values received for it. *)
Abbreviation Header := (gmap string (list string)).

(** [Header.Get]: the first value under [key], [""] when there is
    none.  The one key the handler asks for, [Content-Type], is in
    canonical form already. *)
Definition Get (h : Header) (key : string) : string :=
  match h !! key with
  | Some (v :: _) => v
  | _ => EmptyString
  end.

(** [http.Request], as far as the handler reads it.  Its [Body] is a
    stream with a read position: it is part of the world ([body] below). *)
Record Request : Type := mkRequest {
  Method : string;
  Header_ : Header;
  Context_ : Context
}.

(** A [ResponseWriter], as far as it answers the handler: the error its
    [Write] returns for the bytes it is given, [None] for [nil]. *)
Record ResponseWriter : Type := mkResponseWriter {
  write_result : string -> option string
}.

(** The calls a handler can make on its [ResponseWriter]; [Error] is
    [http.Error(w, error, code)], which sets plain-text headers, calls
    [w.WriteHeader(code)] and prints [error] to [w]. *)
Inductive Call : Type :=
| HeaderSet (key value : string)
| WriteHeader (statusCode : Z)
| Write (p : string) (err : option string)
| Error (error : string) (code : Z).
End http.

(** The calls on a span. *)
Inductive SpanCall : Type :=
| SetAttributes (kv : attribute.KeyValue)
| SetStatus (code : codes.Code) (description : string)
| RecordError (err : string)
| End_.

(** [io.ReadCloser] over the request body: the bytes not yet read. *)
Definition ReadCloser : Type := string.

Section Handler.

(** Whatever the registered processors keep and change between calls. *)
Context {State : Type}.

(** [type Processor interface { Process(context.Context, io.ReadCloser) error }].
    A call may read from the body, change the processors' state, and
    returns [nil] ([None]) or an error (its text). *)
Record Processor : Type := mkProcessor {
  Process : Context -> ReadCloser -> State -> ReadCloser * State * option string
}.

(** [type Create struct]; a nil [tracer] is [None]. *)
Record Create : Type := mkCreate {
  tracer : option Tracer;
  processors : list Processor
}.

(** Everything the handler does to the outside, in the order it does it. *)
Inductive Event : Type :=
| TracerStart (t : Tracer) (parent : Context) (spanName : string)
| OnSpan (s : Span) (c : SpanCall)
| NewUUID (id : UUID.UUID)
| ProcessCall (i : nat) (ctx : Context) (err : option string)
| OnWriter (c : http.Call).

(** What a request can change: the read position of its body, the state
    of the processors, and the random source, given as the blocks of
    sixteen bytes it will deliver. *)
Record World : Type := mkWorld {
  body : ReadCloser;
  pstate : State;
  random : nat -> UUID.UUID
}.

(** ** The monad of the handler

    A computation takes the world and returns its value, the world after
    it and the events it caused, or panics ([None]). *)
Definition M (A : Type) : Type := World -> option (A * World * list Event).

Definition ret {A} (a : A) : M A := fun w => Some (a, w, []).

Definition bind {A B} (m : M A) (k : A -> M B) : M B :=
  fun w =>
    match m w with
    | None => None
    | Some (a, w1, es1) =>
        match k a w1 with
        | None => None
        | Some (b, w2, es2) => Some (b, w2, (es1 ++ es2)%list)
        end
    end.

Definition emit (e : Event) : M unit := fun w => Some (tt, w, [e]).

Definition panic {A} : M A := fun _ => None.

(** [defer d] around the rest of the function body: [d] runs when the
    body returns.  (It also runs when the body panics; the panic goes on
    afterwards, so the outcome is [None] either way.) *)
Definition defer {A} (d : M unit) (body_ : M A) : M A :=
  bind body_ (fun a => bind d (fun _ => ret a)).

End Handler.

Arguments Processor : clear implicits.
Arguments Create : clear implicits.
Arguments World : clear implicits.
Arguments M : clear implicits.

Declare Scope go_scope.
Delimit Scope go_scope with go.
Notation "x <- m ;; k" := (bind m (fun x => k))
  (at level 100, m at next level, right associativity) : go_scope.
Notation "m ;; k" := (bind m (fun _ => k))
  (at level 100, right associativity) : go_scope.

(* ===================================================================== *)
(** * Package [config]: the handler *)
(* ===================================================================== *)

Section Config.

Context {State : Type}.

Local Open Scope go_scope.

Let M := M State.
Let Create := Create State.
Let Processor := Processor State.

(** ** Calls on the collaborators *)

(** [tracer.Start(ctx, spanName)]; a call on a nil tracer panics. *)
Definition tracer_Start (t : option Tracer) (ctx : Context) (spanName : string)
  : M (Context * Span) :=
  match t with
  | None => panic
  | Some t =>
      emit (TracerStart t ctx spanName) ;;
      ret (WithSpan ctx t spanName, mkSpan t spanName)
  end.

Definition span_SetAttributes (span : Span) (kv : attribute.KeyValue) : M unit :=
  emit (OnSpan span (SetAttributes kv)).

Definition span_SetStatus (span : Span) (code : codes.Code) (description : string)
  : M unit :=
  emit (OnSpan span (SetStatus code description)).

Definition span_RecordError (span : Span) (err : string) : M unit :=
  emit (OnSpan span (RecordError err)).

Definition span_End (span : Span) : M unit := emit (OnSpan span End_).

(** [uuid.New()]: the next sixteen random bytes, made a version 4 UUID. *)
Definition uuid_New : M UUID.UUID :=
  fun w =>
    let id := UUID.New (random w 0) in
    Some (id,
          {| body := body w; pstate := pstate w;
             random := fun n => random w (S n) |},
          [NewUUID id]).

(** [p.Process(ctx, r.Body)] for the processor at index [i]. *)
Definition call_Process (i : nat) (p : Processor) (ctx : Context)
  : M (option string) :=
  fun w =>
    let '(b, s, err) := Process p ctx (body w) (pstate w) in
    Some (err,
          {| body := b; pstate := s; random := random w |},
          [ProcessCall i ctx err]).

Definition Header_Set (w : http.ResponseWriter) (key value : string) : M unit :=
  emit (OnWriter (http.HeaderSet key value)).

Definition WriteHeader (w : http.ResponseWriter) (statusCode : Z) : M unit :=
  emit (OnWriter (http.WriteHeader statusCode)).

Definition Write (w : http.ResponseWriter) (p : string) : M (option string) :=
  fun wd =>
    Some (http.write_result w p, wd,
          [OnWriter (http.Write p (http.write_result w p))]).

Definition http_Error (w : http.ResponseWriter) (error : string) (code : Z)
  : M unit :=
  emit (OnWriter (http.Error error code)).

(** ** Construction *)

(** [WithTracer(tracer)]; the argument may be a nil tracer. *)
Definition WithTracer (t : option Tracer) : Create -> Create :=
  fun h => {| tracer := t; processors := processors h |}.

(** [WithProcessors(processors...)]: the whole list is assigned. *)
Definition WithProcessors (ps : list Processor) : Create -> Create :=
  fun h => {| tracer := tracer h; processors := ps |}.

(** [NewHandler(opts...)]: the options applied in order to the zero
    value, then the default tracer when none was set. *)
Definition NewHandler (opts : list (Create -> Create)) : Create :=
  let h := fold_left (fun h opt => opt h) opts
             {| tracer := None; processors := [] |} in
  match tracer h with
  | None => {| tracer := Some (otel_Tracer "config"); processors := processors h |}
  | Some _ => h
  end.

(** ** [writeResponse] *)

Definition writeResponse (span : Span) (w : http.ResponseWriter)
    (statusCode : Z) (resp : Response) : M unit :=
  match ResponseJSON.Marshal resp with
  | Err err =>
      span_RecordError span err ;;
      span_SetStatus span codes.Error "failed to marshal response" ;;
      http_Error w "Failed to marshal response" http.StatusInternalServerError
  | Ok respBody =>
      Header_Set w "Content-Type" "application/json" ;;
      WriteHeader w statusCode ;;
      err <- Write w respBody ;;
      match err with
      | Some err =>
          span_RecordError span err ;;
          span_SetStatus span codes.Error "failed to write response" ;;
          http_Error w "Failed to write response" http.StatusInternalServerError
      | None => ret tt
      end
  end.

(** ** [ServeHTTP] *)

(** The loop [for _, p := range h.processors], from index [i] on.  The
    result tells whether the body of the loop returned from [ServeHTTP]
    (the first failing processor) or the loop ran to its end. *)
Fixpoint range_processors (span : Span) (w : http.ResponseWriter)
    (ctx : Context) (i : nat) (ps : list Processor) : M bool :=
  match ps with
  | [] => ret false
  | p :: rest =>
      err <- call_Process i p ctx ;;
      match err with
      | Some err =>
          span_SetStatus span codes.Error err ;;
          writeResponse span w http.StatusInternalServerError
            {| Success := false;
               Message := "Failed to process configuration";
               ID := UUID.Nil |} ;;
          ret true
      | None => range_processors span w ctx (S i) rest
      end
  end.

(** [func (h *Create) ServeHTTP(w http.ResponseWriter, r *http.Request)].
    The three failure responses leave [ID] out of the struct literal: it
    is the zero value of [uuid.UUID], [UUID.Nil]. *)
Definition ServeHTTP (h : Create) (w : http.ResponseWriter) (r : http.Request)
  : M unit :=
  cs <- tracer_Start (tracer h) (http.Context_ r) "CreateConfig" ;;
  let ctx := fst cs in
  let span := snd cs in
  defer (span_End span) (
    id <- uuid_New ;;
    span_SetAttributes span (attribute.Stringer "id" id) ;;
    (* verify that we have a POST request *)
    if negb (String.eqb (http.Method r) "POST") then
      span_SetAttributes span (attribute.String "method" (http.Method r)) ;;
      span_SetStatus span codes.Error "invalid request method" ;;
      writeResponse span w http.StatusMethodNotAllowed
        {| Success := false;
           Message := "Invalid request method";
           ID := UUID.Nil |}
    (* verify we have a YAML payload *)
    else if negb (String.eqb (http.Get (http.Header_ r) "Content-Type")
                    "application/yaml") then
      span_SetAttributes span
        (attribute.String "content-type"
           (http.Get (http.Header_ r) "Content-Type")) ;;
      span_SetStatus span codes.Error "invalid request content type" ;;
      writeResponse span w http.StatusBadRequest
        {| Success := false;
           Message := "Invalid content type";
           ID := UUID.Nil |}
    else
      (* process the request *)
      returned <- range_processors span w ctx 0 (processors h) ;;
      if (returned : bool) then ret tt
      else
        span_SetAttributes span (attribute.Bool "success" true) ;;
        (* send the response *)
        writeResponse span w http.StatusOK
          {| Success := true;
             Message := "Configuration received";
             ID := id |}
  ).

End Config.

(* ===================================================================== *)
(** * What a run shows *)
(* ===================================================================== *)

Section Observations.

(** The calls made on the response writer, in order. *)
Definition writer_calls (es : list Event) : list http.Call :=
  omap (fun e => match e with OnWriter c => Some c | _ => None end) es.

(** The calls made on spans, in order. *)
Definition span_calls (es : list Event) : list SpanCall :=
  omap (fun e => match e with OnSpan _ c => Some c | _ => None end) es.

(** The indices of the processors invoked, in order of invocation. *)
Definition invoked (es : list Event) : list nat :=
  omap (fun e => match e with ProcessCall i _ _ => Some i | _ => None end) es.

(** The status of the response: the code of the first call that writes a
    status line.  Later ones are superfluous and change nothing. *)
Definition status_of (cs : list http.Call) : option Z :=
  head (omap (fun c => match c with
                       | http.WriteHeader code => Some code
                       | http.Error _ code => Some code
                       | _ => None
                       end) cs).

(** The bytes handed to [Write] for the body. *)
Definition body_of (cs : list http.Call) : option string :=
  head (omap (fun c => match c with http.Write p _ => Some p | _ => None end) cs).

(** The header value set under [key] before the status line is written. *)
Fixpoint header_of (key : string) (cs : list http.Call) (cur : option string)
  : option string :=
  match cs with
  | http.HeaderSet k v :: rest =>
      header_of key rest (if String.eqb k key then Some v else cur)
  | _ => cur
  end.

Definition response_status (es : list Event) : option Z :=
  status_of (writer_calls es).

Definition response_body (es : list Event) : option string :=
  body_of (writer_calls es).

Definition response_content_type (es : list Event) : option string :=
  header_of "Content-Type" (writer_calls es) None.

(** The calls made on the writer after a [Write] of it returned an error. *)
Fixpoint after_failed_write (cs : list http.Call) : list http.Call :=
  match cs with
  | [] => []
  | http.Write _ (Some _) :: rest => rest
  | _ :: rest => after_failed_write rest
  end.

(** The number of [Write] calls. *)
Definition writes (cs : list http.Call) : nat :=
  length (omap (fun c => match c with http.Write p _ => Some p | _ => None end) cs).

End Observations.



(** ** The processors of [create_test.go] *)

Module Test.

(** [mockProcessor{called, err}].  The state of the processors is the
    [called] flag of every mock, a mock being known by its place [addr]
    in that list; [err] is fixed when the mock is made. *)
Definition mockProcessor (addr : nat) (err : option string)
  : Processor (list bool) :=
  {| Process := fun _ b called => (b, <[addr := true]> called, err) |}.

(** [assert.AnError]. *)
Definition AnError : string := "assert.AnError general error for testing".

(** [httptest.NewRecorder()]: its [Write] never fails. *)
Definition NewRecorder : http.ResponseWriter :=
  {| http.write_result := fun _ => None |}.

(** A writer whose peer is gone: every [Write] fails. *)
Definition brokenWriter : http.ResponseWriter :=
  {| http.write_result := fun _ => Some "write: broken pipe" |}.

(** [httptest.NewRequest(method, "/", body)] with one [Content-Type]. *)
Definition NewRequest (method contentType : string) : http.Request :=
  {| http.Method := method;
     http.Header_ := {[ "Content-Type" := [contentType] ]};
     http.Context_ := RequestContext 0 |}.

(** The world of a test: the body to read, the mocks not yet called, and
    a random source that delivers the block [rnd] over and over. *)
Definition world (b : string) (mocks : nat) (rnd : UUID.UUID)
  : World (list bool) :=
  {| body := b; pstate := replicate mocks false; random := fun _ => rnd |}.

(** Sixteen bytes from the random source, [01 02 ... 10]. *)
Definition rnd : UUID.UUID :=
  UUID.MkUUID x01 x02 x03 x04 x05 x06 x07 x08 x09 x0a x0b x0c x0d x0e x0f x10.

(** The body the tests send. *)
Definition payload : string := "{" ++ quoted "key" ++ ":" ++ quoted "value" ++ "}".

Definition getRequest : http.Request := NewRequest "GET" "text/plain".

Definition jsonPost : http.Request := NewRequest "POST" "application/json".

Definition yamlPost : http.Request := NewRequest "POST" "application/yaml".

(** [NewHandler(WithProcessors(m))] of [TestCreate]. *)
Definition oneMock : Create (list bool) :=
  NewHandler [WithProcessors [mockProcessor 0 None]].

(** [NewHandler(WithProcessors(m))] of [TestFailedToProcess]. *)
Definition failingMock : Create (list bool) :=
  NewHandler [WithProcessors [mockProcessor 0 (Some AnError)]].

(** Three processors, the second of which fails. *)
Definition threeMocks : Create (list bool) :=
  NewHandler
    [WithProcessors
       [mockProcessor 0 None; mockProcessor 1 (Some AnError);
        mockProcessor 2 None]].

(** Two processors; the first fails with another text. *)
Definition otherFailure : Create (list bool) :=
  NewHandler
    [WithTracer (Some "other");
     WithProcessors [mockProcessor 0 (Some "disk full"); mockProcessor 1 None]].

End Test.

(* ===================================================================== *)
(** * Notions used to state the facts below *)
(* ===================================================================== *)

Module Shape.

Import JSON.

(** Text made of bytes that JSON writes as they are. *)
Fixpoint all_safe (s : string) : bool :=
  match s with
  | EmptyString => true
  | String c t => htmlSafe c && all_safe t
  end.

Definition bool_token (b : bool) : token := if b then TTrue else TFalse.

(** The tokens of an encoded [Response]. *)
Definition tokens (b : bool) (msg us : string) : list token :=
  [TLBrace; TString "success"; TColon; bool_token b; TComma;
   TString "message"; TColon; TString msg; TComma;
   TString "id"; TColon; TString us; TRBrace].

End Shape.

(* ===================================================================== *)
(** * What the handler does, path by path *)
(* ===================================================================== *)

(** The three failure envelopes and the success envelope. *)
Definition invalidMethod : Response :=
  {| Success := false; Message := "Invalid request method"; ID := UUID.Nil |}.

Definition invalidContentType : Response :=
  {| Success := false; Message := "Invalid content type"; ID := UUID.Nil |}.

Definition failedToProcess : Response :=
  {| Success := false; Message := "Failed to process configuration";
     ID := UUID.Nil |}.

Definition received (id : UUID.UUID) : Response :=
  {| Success := true; Message := "Configuration received"; ID := id |}.

Section Runs.

Context {State : Type}.

Let Processor := Processor State.
Let Create := Create State.
Let World := World State.

(** ** The processors on their own *)

(** The first processor to return an error when the list is called in
    order, each call starting from the body and state the previous one
    left: its index and the error, or [None] when all return [nil]. *)
Fixpoint first_failure (ctx : Context) (ps : list Processor)
    (b : ReadCloser) (s : State) : option (nat * string) :=
  match ps with
  | [] => None
  | p :: rest =>
      match Process p ctx b s with
      | (_, _, Some e) => Some (0, e)
      | (b', s', None) =>
          match first_failure ctx rest b' s' with
          | Some (k, e) => Some (S k, e)
          | None => None
          end
      end
  end.

(** Body and state after those calls, the failing one included. *)
Fixpoint after_calls (ctx : Context) (ps : list Processor)
    (b : ReadCloser) (s : State) : ReadCloser * State :=
  match ps with
  | [] => (b, s)
  | p :: rest =>
      match Process p ctx b s with
      | (b', s', Some _) => (b', s')
      | (b', s', None) => after_calls ctx rest b' s'
      end
  end.

(** The calls themselves, numbered from [i]. *)
Fixpoint calls (ctx : Context) (i : nat) (ps : list Processor)
    (b : ReadCloser) (s : State) : list Event :=
  match ps with
  | [] => []
  | p :: rest =>
      match Process p ctx b s with
      | (_, _, Some e) => [ProcessCall i ctx (Some e)]
      | (b', s', None) =>
          ProcessCall i ctx None :: calls ctx (S i) rest b' s'
      end
  end.

(** How many processors are called. *)
Definition called (ctx : Context) (ps : list Processor)
    (b : ReadCloser) (s : State) : nat :=
  match first_failure ctx ps b s with
  | Some (k, _) => S k
  | None => length ps
  end.

(** ** The events of [writeResponse] *)

Definition written (span : Span) (w : http.ResponseWriter) (statusCode : Z)
    (resp : Response) : list Event :=
  let respBody := ResponseJSON.encode resp in
  OnWriter (http.HeaderSet "Content-Type" "application/json")
  :: OnWriter (http.WriteHeader statusCode)
  :: OnWriter (http.Write respBody (http.write_result w respBody))
  :: match http.write_result w respBody with
     | Some err =>
         [OnSpan span (RecordError err);
          OnSpan span (SetStatus codes.Error "failed to write response");
          OnWriter (http.Error "Failed to write response"
                      http.StatusInternalServerError)]
     | None => []
     end.

(** The world once the identifier has been drawn. *)
Definition drawn (wd : World) : World :=
  {| body := body wd; pstate := pstate wd;
     random := fun n => random wd (S n) |}.

(** The world once the processors have been called as well. *)
Definition processed (ctx : Context) (ps : list Processor) (wd : World)
  : World :=
  {| body := fst (after_calls ctx ps (body wd) (pstate wd));
     pstate := snd (after_calls ctx ps (body wd) (pstate wd));
     random := random wd |}.

(** What every run starts with: the span, the identifier, its attribute. *)
Definition prologue (t : Tracer) (r : http.Request) (id : UUID.UUID)
  : list Event :=
  [TracerStart t (http.Context_ r) "CreateConfig";
   NewUUID id;
   OnSpan (mkSpan t "CreateConfig")
     (SetAttributes (attribute.Stringer "id" id))].

(** The context the processors are called with. *)
Definition dispatch_context (t : Tracer) (r : http.Request) : Context :=
  WithSpan (http.Context_ r) t "CreateConfig".

(** The terminal states of a request. *)
Inductive Outcome : Type :=
| Succeeded
| FailedInvalidMethod
| FailedInvalidContentType
| FailedProcessorError (k : nat) (e : string).

(** The terminal state a request reaches: decided by its method, its
    content type and the processors, in that order. *)
Definition outcome (h : Create) (t : Tracer) (r : http.Request) (wd : World)
  : Outcome :=
  if negb (String.eqb (http.Method r) "POST") then FailedInvalidMethod
  else if negb (String.eqb (http.Get (http.Header_ r) "Content-Type")
                  "application/yaml")
  then FailedInvalidContentType
  else
    match first_failure (dispatch_context t r) (processors h)
            (body wd) (pstate wd) with
    | Some (k, e) => FailedProcessorError k e
    | None => Succeeded
    end.

Definition statusCode (o : Outcome) : Z :=
  match o with
  | Succeeded => http.StatusOK
  | FailedInvalidMethod => http.StatusMethodNotAllowed
  | FailedInvalidContentType => http.StatusBadRequest
  | FailedProcessorError _ _ => http.StatusInternalServerError
  end.

Definition envelope (o : Outcome) (id : UUID.UUID) : Response :=
  match o with
  | Succeeded => received id
  | FailedInvalidMethod => invalidMethod
  | FailedInvalidContentType => invalidContentType
  | FailedProcessorError _ _ => failedToProcess
  end.

(** The events between the prologue and the response. *)
Definition dispatch_events (h : Create) (t : Tracer) (r : http.Request)
    (wd : World) : list Event :=
  let span := mkSpan t "CreateConfig" in
  match outcome h t r wd with
  | FailedInvalidMethod =>
      [OnSpan span (SetAttributes (attribute.String "method" (http.Method r)));
       OnSpan span (SetStatus codes.Error "invalid request method")]
  | FailedInvalidContentType =>
      [OnSpan span
         (SetAttributes
            (attribute.String "content-type"
               (http.Get (http.Header_ r) "Content-Type")));
       OnSpan span (SetStatus codes.Error "invalid request content type")]
  | FailedProcessorError _ e =>
      (calls (dispatch_context t r) 0 (processors h) (body wd) (pstate wd)
       ++ [OnSpan span (SetStatus codes.Error e)])%list
  | Succeeded =>
      (calls (dispatch_context t r) 0 (processors h) (body wd) (pstate wd)
       ++ [OnSpan span (SetAttributes (attribute.Bool "success" true))])%list
  end.

(** The world a request leaves behind. *)
Definition final_world (h : Create) (t : Tracer) (r : http.Request)
    (wd : World) : World :=
  match outcome h t r wd with
  | FailedInvalidMethod | FailedInvalidContentType => drawn wd
  | _ => processed (dispatch_context t r) (processors h) (drawn wd)
  end.

(** All the events of a request. *)
Definition run_events (h : Create) (t : Tracer) (w : http.ResponseWriter)
    (r : http.Request) (wd : World) : list Event :=
  let span := mkSpan t "CreateConfig" in
  let id := UUID.New (random wd 0) in
  (prologue t r id ++ dispatch_events h t r wd
   ++ written span w (statusCode (outcome h t r wd))
        (envelope (outcome h t r wd) id)
   ++ [OnSpan span End_])%list.

(** The events of a run that returned; none for one that panicked. *)
Definition events_of (res : option (unit * World * list Event)) : list Event :=
  match res with
  | Some (_, _, es) => es
  | None => []
  end.

(** A request that is answered with a failure: by its method, by its
    content type, or by a processor. *)
Definition rejected (h : Create) (t : Tracer) (r : http.Request) (wd : World)
  : Prop :=
  http.Method r <> "POST"
  \/ http.Get (http.Header_ r) "Content-Type" <> "application/yaml"
  \/ first_failure (dispatch_context t r) (processors h)
       (body wd) (pstate wd) <> None.

End Runs.

(** The response of a run carries [resp]: it is declared as JSON, and its
    body is [resp] marshalled, which unmarshals into a fresh [Response]
    as [resp] again. *)
Definition carries (es : list Event) (resp : Response) : Prop :=
  response_content_type es = Some "application/json"
  /\ exists respBody,
       response_body es = Some respBody
       /\ ResponseJSON.Marshal resp = Ok respBody
       /\ ResponseJSON.Unmarshal respBody zeroResponse = Some resp.

(** The four combinations of [success] and [message] the handler uses,
    under any identifier. *)
Definition fixed_envelope (resp : Response) : bool :=
  if Success resp then String.eqb (Message resp) "Configuration received"
  else String.eqb (Message resp) "Invalid request method"
       || String.eqb (Message resp) "Invalid content type"
       || String.eqb (Message resp) "Failed to process configuration".

(** The text of the nil UUID. *)
Definition nilText : string := "00000000-0000-0000-0000-000000000000".

(** The body of a failure response with message [msg], byte for byte. *)
Definition failure_body (msg : string) : string :=
  "{" ++ quoted "success" ++ ":false," ++
  quoted "message" ++ ":" ++ quoted msg ++ "," ++
  quoted "id" ++ ":" ++ quoted nilText ++ "}".


(** ** A request whose response cannot be written *)

Module Broken.

Definition rnd : UUID.UUID := UUID.Nil.

Definition h : Create (list bool) := NewHandler [].

Definition r : http.Request := Test.NewRequest "GET" "text/plain".

Definition wd : World (list bool) := Test.world EmptyString 0 rnd.

(** The events of [h.ServeHTTP(w, r)] for the writer that always fails. *)
Definition es : list Event := events_of (ServeHTTP h Test.brokenWriter r wd).

End Broken.

(* ===================================================================== *)
(** * Further notions: construction, threading, mocks *)
(* ===================================================================== *)

(** The identifiers drawn from the random source, in order. *)
Definition drawn_ids (es : list Event) : list UUID.UUID :=
  omap (fun e => match e with NewUUID id => Some id | _ => None end) es.

(** The spans started, by name, in order. *)
Definition started (es : list Event) : list string :=
  omap (fun e => match e with TracerStart _ _ n => Some n | _ => None end) es.

(** The contexts handed to the processors, in order of invocation. *)
Definition contexts (es : list Event) : list Context :=
  omap (fun e => match e with ProcessCall _ c _ => Some c | _ => None end) es.

(** How often a span was ended. *)
Definition ends (cs : list SpanCall) : nat :=
  length (omap (fun c => match c with End_ => Some tt | _ => None end) cs).

(** The descriptions with which a span was marked errored, in order. *)
Definition error_statuses (cs : list SpanCall) : list string :=
  omap (fun c => match c with
                 | SetStatus codes.Error d => Some d
                 | _ => None
                 end) cs.

(** The errors returned by [Write], in order. *)
Definition write_errors (cs : list http.Call) : list string :=
  omap (fun c => match c with http.Write _ (Some e) => Some e | _ => None end) cs.

Section Threading.

Context {State : Type}.

(** One processor called on a body and a state, its verdict dropped. *)
Definition step (ctx : Context) (bs : ReadCloser * State)
    (p : Processor State) : ReadCloser * State :=
  let '(b', s', _) := Process p ctx (fst bs) (snd bs) in (b', s').

(** All processors called one after the other, whatever they return. *)
Definition thread (ctx : Context) (ps : list (Processor State))
    (bs : ReadCloser * State) : ReadCloser * State :=
  fold_left (step ctx) ps bs.

(** A processor that reads the body to its end and succeeds. *)
Definition drain : Processor State :=
  {| Process := fun _ _ s => (EmptyString, s, None) |}.

(** An option that leaves the tracer of the handler as it finds it. *)
Definition keeps_tracer (opt : Create State -> Create State) : Prop :=
  forall h, tracer (opt h) = tracer h.

(** An option that leaves the processors of the handler as it finds them. *)
Definition keeps_processors (opt : Create State -> Create State) : Prop :=
  forall h, processors (opt h) = processors h.

End Threading.

(** ** Mocks in a row *)

Module Mocks.

(** One [mockProcessor] per entry of [errs], the mock for entry [j]
    keeping its [called] flag at place [i + j]. *)
Fixpoint mocks_from (i : nat) (errs : list (option string))
  : list (Processor (list bool)) :=
  match errs with
  | [] => []
  | e :: rest => Test.mockProcessor i e :: mocks_from (S i) rest
  end.

Definition mocks (errs : list (option string)) : list (Processor (list bool)) :=
  mocks_from 0 errs.

(** How many of the mocks a loop that stops at the first error calls. *)
Fixpoint reached (errs : list (option string)) : nat :=
  match errs with
  | [] => 0
  | Some _ :: _ => 1
  | None :: rest => S (reached rest)
  end.

(** A POST that carries no [Content-Type] header at all. *)
Definition bareRequest : http.Request :=
  {| http.Method := "POST"; http.Header_ := ∅;
     http.Context_ := RequestContext 0 |}.

(** A POST with two [Content-Type] values, the first of them YAML. *)
Definition twoTypes : http.Request :=
  {| http.Method := "POST";
     http.Header_ := {[ "Content-Type" := ["application/yaml"; "text/plain"] ]};
     http.Context_ := RequestContext 0 |}.

(** A handler of four mocks, the third of which fails. *)
Definition errs4 : list (option string) :=
  [None; None; Some Test.AnError; None].

Definition fourMocks : Create (list bool) :=
  NewHandler [WithProcessors (mocks errs4)].

(** A second processor that fails on an empty body and succeeds on any
    other; behind [drain] it fails. *)
Definition needsBody : Processor (list bool) :=
  {| Process := fun _ b s =>
       match b with
       | EmptyString => (b, s, Some "empty body")
       | _ => (b, s, None)
       end |}.

Definition drainFirst : Create (list bool) :=
  NewHandler [WithProcessors [drain; needsBody]].

End Mocks.

(* ===================================================================== *)
(** * Facts about identifiers *)
(* ===================================================================== *)

Module UUIDFacts.

Import UUID.

(** Two digits written by [hex.Encode] read back as the byte. *)
Lemma xtob_hex (b : byte) : xtob (hex_hi b) (hex_lo b) = Some b.
Proof. destruct b; vm_compute; reflexivity. Qed.

(** The digits of [hextable] are written to JSON unescaped. *)
Lemma hex_hi_safe (b : byte) : JSON.htmlSafe (hex_hi b) = true.
Proof. destruct b; vm_compute; reflexivity. Qed.

Lemma hex_lo_safe (b : byte) : JSON.htmlSafe (hex_lo b) = true.
Proof. destruct b; vm_compute; reflexivity. Qed.

(** The version nibble: the first digit of the seventh byte is [4]. *)
Lemma version_digit (b : byte) : hex_hi (bor (band b x0f) x40) = "4"%char.
Proof. destruct b; vm_compute; reflexivity. Qed.

Lemma version_byte_nonzero (b : byte) : bor (band b x0f) x40 <> x00.
Proof. destruct b; vm_compute; discriminate. Qed.

#[local] Opaque hex_hi hex_lo xtob.

(** The text of a UUID, digit by digit. *)
Lemma String_unfold b0 b1 b2 b3 b4 b5 b6 b7 b8 b9 b10 b11 b12 b13 b14 b15 :
  String (MkUUID b0 b1 b2 b3 b4 b5 b6 b7 b8 b9 b10 b11 b12 b13 b14 b15) =
  hex_Encode [b0; b1; b2; b3] ++ "-" ++ hex_Encode [b4; b5] ++ "-" ++
  hex_Encode [b6; b7] ++ "-" ++ hex_Encode [b8; b9] ++ "-" ++
  hex_Encode [b10; b11; b12; b13; b14; b15].
Proof. reflexivity. Qed.

Lemma String_length (u : UUID) : String.length (String u) = 36%nat.
Proof. destruct u; reflexivity. Qed.

(** [Parse] inverts [String]. *)
Lemma Parse_String (u : UUID) : Parse (String u) = Some u.
Proof.
  destruct u. rewrite String_unfold.
  cbv [hex_Encode String.append].
  unfold Parse. cbn [String.length]. unfold parse_canonical.
  cbn [at_ String.get xtob_all Ascii.eqb Bool.eqb negb orb].
  rewrite !xtob_hex. reflexivity.
Qed.

Lemma String_inj (u v : UUID) : String u = String v -> u = v.
Proof.
  intros H. pose proof (Parse_String u) as Hu.
  rewrite H, Parse_String in Hu. congruence.
Qed.

(** A freshly made identifier is never the nil UUID. *)
Lemma New_not_Nil (rnd : UUID) : New rnd <> Nil.
Proof.
  destruct rnd. unfold New, Nil. intros H.
  injection H as _ _ _ _ _ _ H6 _. exact (version_byte_nonzero _ H6).
Qed.

(** The fifteenth character of its text is the version digit. *)
Lemma New_version (rnd : UUID) : String.get 14 (String (New rnd)) = Some "4"%char.
Proof.
  destruct rnd. unfold New. rewrite String_unfold.
  cbv [hex_Encode String.append]. cbn [String.get]. now rewrite version_digit.
Qed.

End UUIDFacts.

(* ===================================================================== *)
(** * Facts about the wire form *)
(* ===================================================================== *)

Module JSONFacts.

Import UTF8 JSON Shape.

Lemma append_empty (t : string) : EmptyString ++ t = t.
Proof. reflexivity. Qed.

Lemma append_cons (c : ascii) (s t : string) : String c s ++ t = String c (s ++ t).
Proof. reflexivity. Qed.

Lemma append_assoc (s t u : string) : (s ++ t) ++ u = s ++ (t ++ u).
Proof.
  induction s as [|c s IH]; [reflexivity|].
  rewrite !append_cons. now rewrite IH.
Qed.

(** Rewriting an append whose left side is known text. *)
Ltac norm_app := rewrite ?append_cons, ?append_empty.

Lemma safe_facts (c : ascii) :
  htmlSafe c = true ->
  (code c <? 128)%N = true /\ (code c <? 32)%N = false /\
  Ascii.eqb c dquote = false /\ Ascii.eqb c "\" = false.
Proof.
  unfold htmlSafe, between. intros H.
  rewrite !andb_true_iff, !negb_true_iff, !N.leb_le in H.
  destruct H as ((((([Hlo Hhi] & Hdq) & Hbs) & _) & _) & _).
  repeat split; try assumption.
  - apply N.ltb_lt. lia.
  - apply N.ltb_ge. lia.
Qed.

Lemma all_safe_cons (c : ascii) (s : string) :
  all_safe (String c s) = true -> htmlSafe c = true /\ all_safe s = true.
Proof. cbn [all_safe]. intros H. now apply andb_prop in H. Qed.

(** Safe text is written without an escape ... *)
Lemma escape_safe (s : string) : all_safe s = true -> escape 0 0 s = s.
Proof.
  induction s as [|c s IH]; [reflexivity|].
  intros H. apply all_safe_cons in H as [Hc Hs].
  destruct (safe_facts c Hc) as (H128 & _).
  cbn [escape]. rewrite H128, Hc. now rewrite IH.
Qed.

Lemma appendString_safe (s rest : string) :
  all_safe s = true ->
  appendString s ++ rest = String dquote (s ++ String dquote rest).
Proof.
  intros H. unfold appendString. rewrite (escape_safe s H).
  rewrite append_cons, append_assoc. now norm_app.
Qed.

(** ... is scanned as one literal up to the closing quote ... *)
Lemma scan_string_safe (s rest : string) :
  all_safe s = true ->
  scan_string (s ++ String dquote rest) =
  match scan rest with
  | Some ts => Some (s, ts)
  | None => None
  end.
Proof.
  induction s as [|c s IH]; intros H.
  - rewrite append_empty. reflexivity.
  - apply all_safe_cons in H as [Hc Hs].
    destruct (safe_facts c Hc) as (_ & H32 & Hdq & Hbs).
    rewrite append_cons. cbn [scan_string]. rewrite Hdq, Hbs, H32.
    rewrite (IH Hs). now destruct (scan rest).
Qed.

(** ... and unquoted to itself. *)
Lemma unquote_safe (s : string) : all_safe s = true -> unquote 0 s = Some s.
Proof.
  induction s as [|c s IH]; [reflexivity|].
  intros H. apply all_safe_cons in H as [Hc Hs].
  destruct (safe_facts c Hc) as (H128 & H32 & Hdq & Hbs).
  cbn [unquote]. rewrite Hbs, Hdq, H32, H128. cbn [orb].
  now rewrite (IH Hs).
Qed.

(** The text of a UUID is safe. *)
Lemma String_safe (u : UUID.UUID) : all_safe (UUID.String u) = true.
Proof.
  destruct u. rewrite UUIDFacts.String_unfold.
  cbv [UUID.hex_Encode String.append]. cbn [all_safe].
  rewrite !UUIDFacts.hex_hi_safe, !UUIDFacts.hex_lo_safe. reflexivity.
Qed.

End JSONFacts.

(** ** Reading back what was written *)

Module ResponseFacts.

Import UTF8 JSON Shape JSONFacts ResponseJSON.

Lemma scan_quoted (s rest : string) :
  all_safe s = true ->
  scan (String dquote (s ++ String dquote rest)) =
  match scan rest with
  | Some ts => Some (TString s :: ts)
  | None => None
  end.
Proof.
  intros H.
  change (scan (String dquote (s ++ String dquote rest)))
    with (match scan_string (s ++ String dquote rest) with
          | Some (raw, ts) => Some (TString raw :: ts)
          | None => None
          end).
  rewrite (scan_string_safe s rest H). now destruct (scan rest).
Qed.

Lemma scan_lbrace t : scan ("{" ++ t) = cons_token TLBrace (scan t).
Proof. reflexivity. Qed.

Lemma scan_colon t : scan (":" ++ t) = cons_token TColon (scan t).
Proof. reflexivity. Qed.

Lemma scan_comma t : scan ("," ++ t) = cons_token TComma (scan t).
Proof. reflexivity. Qed.

Lemma scan_true t : scan ("true" ++ t) = cons_token TTrue (scan t).
Proof. reflexivity. Qed.

Lemma scan_false t : scan ("false" ++ t) = cons_token TFalse (scan t).
Proof. reflexivity. Qed.

Lemma scan_rbrace_end : scan "}" = Some [TRBrace].
Proof. reflexivity. Qed.

Lemma find_success : find_field fields "success" = Some FSuccess.
Proof. vm_compute. reflexivity. Qed.

Lemma find_message : find_field fields "message" = Some FMessage.
Proof. vm_compute. reflexivity. Qed.

Lemma find_id : find_field fields "id" = Some FID.
Proof. vm_compute. reflexivity. Qed.

Lemma scan_members_tail (msg us : string) :
  all_safe msg = true -> all_safe us = true ->
  scan ("," ++ appendString "message" ++ ":" ++ appendString msg ++
        "," ++ appendString "id" ++ ":" ++ appendString us ++ "}") =
  Some [TComma; TString "message"; TColon; TString msg; TComma;
        TString "id"; TColon; TString us; TRBrace].
Proof.
  intros Hmsg Hus.
  rewrite !appendString_safe by (reflexivity || assumption).
  rewrite scan_comma, scan_quoted, scan_colon, scan_quoted
    by (reflexivity || assumption).
  rewrite scan_comma, scan_quoted, scan_colon, scan_quoted
    by (reflexivity || assumption).
  rewrite scan_rbrace_end. reflexivity.
Qed.

Lemma scan_encode (resp : Response) :
  all_safe (Message resp) = true ->
  scan (encode resp) =
  Some (tokens (Success resp) (Message resp) (UUID.String (ID resp))).
Proof.
  destruct resp as [b msg id]. cbn [Success Message ID]. intros Hmsg.
  unfold encode. cbn [Success Message ID].
  change (UUID.MarshalText id) with (UUID.String id).
  pose proof (scan_members_tail msg (UUID.String id) Hmsg (String_safe id))
    as Htail.
  rewrite (appendString_safe "success") by reflexivity.
  rewrite scan_lbrace, scan_quoted, scan_colon by reflexivity.
  destruct b; unfold encode_bool; [rewrite scan_true|rewrite scan_false];
    rewrite Htail; reflexivity.
Qed.

Lemma parse_tokens (b : bool) (msg us : string) :
  parse_value (S (length (tokens b msg us))) 0 (tokens b msg us) =
  Some (VObject [("success", VBool b); ("message", VString msg);
                 ("id", VString us)], []).
Proof. destruct b; reflexivity. Qed.

Lemma object_members (b : bool) (msg : string) (id : UUID.UUID)
    (init : Response) :
  all_safe msg = true ->
  object [("success", VBool b); ("message", VString msg);
          ("id", VString (UUID.String id))] init =
  Some {| Success := b; Message := msg; ID := id |}.
Proof.
  intros Hmsg. cbn [object].
  rewrite (unquote_safe "success") by reflexivity.
  rewrite find_success. cbn [store object].
  rewrite (unquote_safe "message") by reflexivity.
  rewrite find_message. cbn [store object].
  rewrite (unquote_safe msg Hmsg). cbn [object].
  rewrite (unquote_safe "id") by reflexivity.
  rewrite find_id. cbn [store object].
  rewrite (unquote_safe _ (String_safe id)).
  unfold UUID.UnmarshalText. rewrite UUIDFacts.Parse_String. reflexivity.
Qed.

(** A [Response] whose message needs no escape reads back as written,
    whatever the target held before. *)
Lemma Unmarshal_encode (resp init : Response) :
  all_safe (Message resp) = true ->
  Unmarshal (encode resp) init = Some resp.
Proof.
  intros Hmsg. unfold Unmarshal, parse. rewrite (scan_encode resp Hmsg).
  rewrite parse_tokens. destruct resp as [b msg id].
  cbn [Success Message ID] in *. now apply object_members.
Qed.

End ResponseFacts.


(** ** Occurrences *)

Module OccursFacts.

Import UTF8 JSON Shape JSONFacts ResponseJSON.










Lemma encode_invalidMethod :
  encode invalidMethod = failure_body "Invalid request method".
Proof. vm_compute. reflexivity. Qed.

Lemma encode_invalidContentType :
  encode invalidContentType = failure_body "Invalid content type".
Proof. vm_compute. reflexivity. Qed.

Lemma encode_failedToProcess :
  encode failedToProcess = failure_body "Failed to process configuration".
Proof. vm_compute. reflexivity. Qed.


End OccursFacts.

(* ===================================================================== *)
(** * Facts about runs *)
(* ===================================================================== *)

Section RunFacts.

Context {State : Type}.

Let Processor := Processor State.
Let Create := Create State.
Let World := World State.

#[local] Opaque ResponseJSON.encode.

(** ** The first failure *)

(** The index [first_failure] reports is that of a registered processor,
    which did return the reported error, in the body and state the
    processors before it left. *)
Lemma first_failure_sound ctx (ps : list Processor) b s k e :
  first_failure ctx ps b s = Some (k, e) ->
  exists p b0 s0 b1 s1,
    ps !! k = Some p /\ Process p ctx b0 s0 = (b1, s1, Some e).
Proof.
  revert b s k. induction ps as [|p rest IH]; intros b s k H; [discriminate H|].
  cbn [first_failure] in H.
  destruct (Process p ctx b s) as [[b' s'] [e'|]] eqn:Hp.
  - injection H as <- <-. now exists p, b, s, b', s'.
  - destruct (first_failure ctx rest b' s') as [[k' e']|] eqn:Hr;
      [|discriminate H].
    injection H as <- <-. exact (IH _ _ _ Hr).
Qed.

Lemma first_failure_bound ctx (ps : list Processor) b s k e :
  first_failure ctx ps b s = Some (k, e) -> k < length ps.
Proof.
  intros H. destruct (first_failure_sound _ _ _ _ _ _ H) as (p & _ & _ & _ & _ & Hk & _).
  exact (lookup_lt_Some _ _ _ Hk).
Qed.

(** A registered processor that fails whenever it is called makes the
    run meet a failure: at it, or at a processor before it. *)
Lemma failing_processor_found ctx (ps : list Processor) p b s :
  In p ps ->
  (forall b0 s0, exists b1 s1 e, Process p ctx b0 s0 = (b1, s1, Some e)) ->
  exists k e, first_failure ctx ps b s = Some (k, e).
Proof.
  intros Hin Hp. revert b s.
  induction ps as [|q rest IH]; intros b s; [destruct Hin|].
  cbn [first_failure].
  destruct (Process q ctx b s) as [[b' s'] [e'|]] eqn:Hq; [now eexists _, _|].
  destruct Hin as [->|Hin].
  - destruct (Hp b s) as (b1 & s1 & e & He). congruence.
  - destruct (IH Hin b' s') as (k & e & ->). now eexists _, _.
Qed.

(** ** Running the handler *)

Lemma writeResponse_run span w statusCode resp (wd : World) :
  writeResponse span w statusCode resp wd =
  Some (tt, wd, written span w statusCode resp).
Proof.
  unfold writeResponse, written, ResponseJSON.Marshal.
  unfold bind, Header_Set, WriteHeader, Write, span_RecordError,
    span_SetStatus, http_Error, emit, ret.
  destruct (http.write_result w (ResponseJSON.encode resp)); reflexivity.
Qed.

Lemma range_processors_run span w ctx (ps : list Processor) i (wd : World) :
  range_processors span w ctx i ps wd =
  Some (match first_failure ctx ps (body wd) (pstate wd) with
        | Some _ => true
        | None => false
        end,
        processed ctx ps wd,
        (calls ctx i ps (body wd) (pstate wd) ++
         match first_failure ctx ps (body wd) (pstate wd) with
         | Some (_, e) =>
             OnSpan span (SetStatus codes.Error e)
             :: written span w http.StatusInternalServerError failedToProcess
         | None => []
         end)%list).
Proof.
  revert i wd. induction ps as [|p rest IH]; intros i wd.
  - destruct wd; reflexivity.
  - cbn [range_processors first_failure calls].
    unfold bind at 1. unfold call_Process, processed.
    cbn [after_calls].
    destruct (Process p ctx (body wd) (pstate wd)) as [[b' s'] [e|]] eqn:Hp.
    + unfold bind, span_SetStatus, emit, ret.
      rewrite writeResponse_run. cbn [fst snd body pstate random].
      rewrite app_nil_r. reflexivity.
    + cbn [body pstate random].
      rewrite IH. cbn [body pstate random]. unfold processed.
      cbn [body pstate random].
      destruct (first_failure ctx rest b' s') as [[k e]|]; reflexivity.
Qed.

(** Every run of a handler that has a tracer returns, and its events and
    final world are the ones [run_events] and [final_world] describe. *)
Lemma ServeHTTP_run (h : Create) t w r (wd : World) :
  tracer h = Some t ->
  ServeHTTP h w r wd = Some (tt, final_world h t r wd, run_events h t w r wd).
Proof.
  intros Ht. unfold ServeHTTP, run_events, final_world, dispatch_events, outcome.
  rewrite Ht. unfold tracer_Start, defer.
  unfold bind at 1. unfold bind at 1. unfold emit at 1. unfold ret at 1.
  cbn [fst snd app].
  unfold bind at 1. unfold bind at 1. unfold uuid_New at 1.
  fold (drawn wd). fold (dispatch_context t r).
  destruct (negb (String.eqb (http.Method r) "POST")).
  { unfold bind, span_SetAttributes, span_SetStatus, span_End, emit, ret.
    rewrite writeResponse_run. reflexivity. }
  destruct (negb (String.eqb (http.Get (http.Header_ r) "Content-Type")
                    "application/yaml")).
  { unfold bind, span_SetAttributes, span_SetStatus, span_End, emit, ret.
    rewrite writeResponse_run. reflexivity. }
  unfold bind at 1. unfold span_SetAttributes at 1. unfold emit at 1.
  unfold bind at 1. rewrite range_processors_run.
  change (body (drawn wd)) with (body wd).
  change (pstate (drawn wd)) with (pstate wd).
  destruct (first_failure (dispatch_context t r) (processors h) (body wd)
              (pstate wd)) as [[k e]|].
  - unfold bind, span_End, emit, ret. cbn [app].
    rewrite !app_nil_r, <- !app_assoc. reflexivity.
  - unfold bind, span_SetAttributes, span_End, emit, ret.
    rewrite writeResponse_run. cbn [app].
    rewrite !app_nil_r, <- !app_assoc. reflexivity.
Qed.

(** ** What the observers see of a run *)

Lemma writer_calls_app (es1 es2 : list Event) :
  writer_calls (es1 ++ es2) = (writer_calls es1 ++ writer_calls es2)%list.
Proof. apply omap_app. Qed.

Lemma span_calls_app (es1 es2 : list Event) :
  span_calls (es1 ++ es2) = (span_calls es1 ++ span_calls es2)%list.
Proof. apply omap_app. Qed.

Lemma invoked_app (es1 es2 : list Event) :
  invoked (es1 ++ es2) = (invoked es1 ++ invoked es2)%list.
Proof. apply omap_app. Qed.

Lemma calls_writer ctx i (ps : list Processor) b s :
  writer_calls (calls ctx i ps b s) = [].
Proof.
  revert i b s. induction ps as [|p rest IH]; intros i b s; [reflexivity|].
  cbn [calls]. destruct (Process p ctx b s) as [[b' s'] [e|]]; [reflexivity|].
  apply IH.
Qed.

Lemma calls_span ctx i (ps : list Processor) b s :
  span_calls (calls ctx i ps b s) = [].
Proof.
  revert i b s. induction ps as [|p rest IH]; intros i b s; [reflexivity|].
  cbn [calls]. destruct (Process p ctx b s) as [[b' s'] [e|]]; [reflexivity|].
  apply IH.
Qed.

(** The processors are called in the order of the list, from the first
    up to the first that fails. *)
Lemma calls_invoked ctx i (ps : list Processor) b s :
  invoked (calls ctx i ps b s) = seq i (called ctx ps b s).
Proof.
  unfold called. revert i b s.
  induction ps as [|p rest IH]; intros i b s; [reflexivity|].
  cbn [calls first_failure].
  destruct (Process p ctx b s) as [[b' s'] [e|]]; [reflexivity|].
  change (invoked (ProcessCall i ctx None :: calls ctx (S i) rest b' s'))
    with (i :: invoked (calls ctx (S i) rest b' s')).
  rewrite IH.
  destruct (first_failure ctx rest b' s') as [[k e]|]; reflexivity.
Qed.

Lemma written_writer span w statusCode resp :
  writer_calls (written span w statusCode resp) =
  http.HeaderSet "Content-Type" "application/json"
  :: http.WriteHeader statusCode
  :: http.Write (ResponseJSON.encode resp)
       (http.write_result w (ResponseJSON.encode resp))
  :: match http.write_result w (ResponseJSON.encode resp) with
     | Some _ =>
         [http.Error "Failed to write response" http.StatusInternalServerError]
     | None => []
     end.
Proof.
  unfold written.
  destruct (http.write_result w (ResponseJSON.encode resp)); reflexivity.
Qed.

Lemma written_invoked span w statusCode resp :
  invoked (written span w statusCode resp) = [].
Proof.
  unfold written.
  destruct (http.write_result w (ResponseJSON.encode resp)); reflexivity.
Qed.

Lemma dispatch_writer (h : Create) t r (wd : World) :
  writer_calls (dispatch_events h t r wd) = [].
Proof.
  unfold dispatch_events.
  destruct (outcome h t r wd); try reflexivity;
    rewrite writer_calls_app, calls_writer; reflexivity.
Qed.

Lemma dispatch_invoked (h : Create) t r (wd : World) :
  invoked (dispatch_events h t r wd) =
  match outcome h t r wd with
  | FailedInvalidMethod | FailedInvalidContentType => []
  | _ => seq 0 (called (dispatch_context t r) (processors h)
                  (body wd) (pstate wd))
  end.
Proof.
  unfold dispatch_events.
  destruct (outcome h t r wd); try reflexivity;
    rewrite invoked_app, calls_invoked; apply app_nil_r.
Qed.

Lemma run_writer_calls (h : Create) t w r (wd : World) :
  writer_calls (run_events h t w r wd) =
  writer_calls
    (written (mkSpan t "CreateConfig") w (statusCode (outcome h t r wd))
       (envelope (outcome h t r wd) (UUID.New (random wd 0)))).
Proof.
  unfold run_events. rewrite !writer_calls_app, dispatch_writer.
  cbn [prologue writer_calls omap app]. apply app_nil_r.
Qed.

Lemma run_status (h : Create) t w r (wd : World) :
  response_status (run_events h t w r wd) =
  Some (statusCode (outcome h t r wd)).
Proof.
  unfold response_status. rewrite run_writer_calls, written_writer.
  reflexivity.
Qed.

Lemma run_body (h : Create) t w r (wd : World) :
  response_body (run_events h t w r wd) =
  Some (ResponseJSON.encode
          (envelope (outcome h t r wd) (UUID.New (random wd 0)))).
Proof.
  unfold response_body. rewrite run_writer_calls, written_writer.
  reflexivity.
Qed.

Lemma run_content_type (h : Create) t w r (wd : World) :
  response_content_type (run_events h t w r wd) = Some "application/json".
Proof.
  unfold response_content_type. rewrite run_writer_calls, written_writer.
  reflexivity.
Qed.

Lemma run_invoked (h : Create) t w r (wd : World) :
  invoked (run_events h t w r wd) =
  match outcome h t r wd with
  | FailedInvalidMethod | FailedInvalidContentType => []
  | _ => seq 0 (called (dispatch_context t r) (processors h)
                  (body wd) (pstate wd))
  end.
Proof.
  unfold run_events.
  rewrite !invoked_app, dispatch_invoked, written_invoked.
  cbn [prologue invoked omap app]. now rewrite !app_nil_r.
Qed.

(** The outcome, from what is known of the request. *)
Lemma outcome_invalid_method (h : Create) t r (wd : World) :
  http.Method r <> "POST" -> outcome h t r wd = FailedInvalidMethod.
Proof.
  intros H. unfold outcome.
  apply String.eqb_neq in H. now rewrite H.
Qed.

Lemma outcome_invalid_content_type (h : Create) t r (wd : World) :
  http.Method r = "POST" ->
  http.Get (http.Header_ r) "Content-Type" <> "application/yaml" ->
  outcome h t r wd = FailedInvalidContentType.
Proof.
  intros Hm Hc. unfold outcome.
  apply String.eqb_eq in Hm. apply String.eqb_neq in Hc.
  now rewrite Hm, Hc.
Qed.

Lemma outcome_dispatch (h : Create) t r (wd : World) :
  http.Method r = "POST" ->
  http.Get (http.Header_ r) "Content-Type" = "application/yaml" ->
  outcome h t r wd =
  match first_failure (dispatch_context t r) (processors h)
          (body wd) (pstate wd) with
  | Some (k, e) => FailedProcessorError k e
  | None => Succeeded
  end.
Proof.
  intros Hm Hc. unfold outcome.
  apply String.eqb_eq in Hm. apply String.eqb_eq in Hc.
  now rewrite Hm, Hc.
Qed.

(** A request is rejected exactly when its outcome is not [Succeeded]. *)
Lemma rejected_outcome (h : Create) t r (wd : World) :
  rejected h t r wd <-> outcome h t r wd <> Succeeded.
Proof.
  unfold rejected, outcome.
  destruct (String.eqb (http.Method r) "POST") eqn:Hm;
    [apply String.eqb_eq in Hm | apply String.eqb_neq in Hm]; cbn [negb].
  2: { split; [discriminate | intros _; now left]. }
  destruct (String.eqb (http.Get (http.Header_ r) "Content-Type")
              "application/yaml") eqn:Hc;
    [apply String.eqb_eq in Hc | apply String.eqb_neq in Hc]; cbn [negb].
  2: { split; [discriminate | intros _; right; now left]. }
  destruct (first_failure (dispatch_context t r) (processors h) (body wd)
              (pstate wd)) as [[k e]|].
  - split; [discriminate | intros _; right; right; discriminate].
  - split; [intros [H|[H|H]]; contradiction | intros H; contradiction].
Qed.

Lemma envelope_safe (o : Outcome) (id : UUID.UUID) :
  Shape.all_safe (Message (envelope o id)) = true.
Proof. destruct o; reflexivity. Qed.

(** Every envelope the handler sends is one of the four fixed
    combinations. *)
Lemma envelope_fixed (o : Outcome) (id : UUID.UUID) :
  fixed_envelope (envelope o id) = true.
Proof. destruct o; reflexivity. Qed.

Lemma run_carries (h : Create) t w r (wd : World) :
  carries (run_events h t w r wd)
    (envelope (outcome h t r wd) (UUID.New (random wd 0))).
Proof.
  split; [apply run_content_type|].
  eexists. split; [apply run_body|]. split; [reflexivity|].
  apply ResponseFacts.Unmarshal_encode, envelope_safe.
Qed.

(* ===================================================================== *)
(** * The contract of the handler

    Throughout, the handler [h] has a tracer [t].  Every handler made by
    [NewHandler] has one ([NewHandler_tracer] below); [ServeHTTP] on a
    [Create] whose tracer is nil panics at its first statement
    ([nil_tracer_panics]).  The processors are called with the context
    [dispatch_context t r] that [tracer.Start] derives from the context
    of the request. *)
(* ===================================================================== *)

(** C3. A request whose method is not POST is answered with status 405
    and the envelope [{success:false, message:"Invalid request method"}],
    whatever its headers and body are; no processor is invoked, and the
    body and the processors' state are left as they were. *)
Theorem invalid_method_405 (h : Create) t w r (wd : World) :
  tracer h = Some t ->
  http.Method r <> "POST" ->
  exists wd' es,
    ServeHTTP h w r wd = Some (tt, wd', es)
    /\ response_status es = Some 405%Z
    /\ carries es {| Success := false; Message := "Invalid request method";
                     ID := UUID.Nil |}
    /\ invoked es = []
    /\ body wd' = body wd /\ pstate wd' = pstate wd.
Proof.
  intros Ht Hm. eexists _, _. split; [apply (ServeHTTP_run h t w r wd Ht)|].
  pose proof (run_carries h t w r wd) as Hc.
  rewrite run_status, run_invoked. unfold final_world.
  rewrite (outcome_invalid_method h t r wd Hm) in *.
  repeat split; try reflexivity. exact (proj1 Hc). exact (proj2 Hc).
Qed.

(** C4. A POST request whose [Content-Type] is not exactly
    [application/yaml] is answered with status 400 and the envelope
    [{success:false, message:"Invalid content type"}]; no processor is
    invoked. *)
Theorem invalid_content_type_400 (h : Create) t w r (wd : World) :
  tracer h = Some t ->
  http.Method r = "POST" ->
  http.Get (http.Header_ r) "Content-Type" <> "application/yaml" ->
  exists wd' es,
    ServeHTTP h w r wd = Some (tt, wd', es)
    /\ response_status es = Some 400%Z
    /\ carries es {| Success := false; Message := "Invalid content type";
                     ID := UUID.Nil |}
    /\ invoked es = []
    /\ body wd' = body wd /\ pstate wd' = pstate wd.
Proof.
  intros Ht Hm Hct. eexists _, _.
  split; [apply (ServeHTTP_run h t w r wd Ht)|].
  pose proof (run_carries h t w r wd) as Hc.
  rewrite run_status, run_invoked. unfold final_world.
  rewrite (outcome_invalid_content_type h t r wd Hm Hct) in *.
  repeat split; try reflexivity. exact (proj1 Hc). exact (proj2 Hc).
Qed.

(** C7. A request that fails both checks, the method and the content
    type, is answered for its method: status 405 with "Invalid request
    method", and the span is marked "invalid request method".  The
    content-type failure is not reported, neither in the status, nor in
    the body, nor on the span. *)
Theorem method_checked_first (h : Create) t w r (wd : World) :
  tracer h = Some t ->
  http.Method r <> "POST" ->
  http.Get (http.Header_ r) "Content-Type" <> "application/yaml" ->
  exists wd' es,
    ServeHTTP h w r wd = Some (tt, wd', es)
    /\ response_status es = Some http.StatusMethodNotAllowed
    /\ response_status es <> Some http.StatusBadRequest
    /\ response_body es = Some (ResponseJSON.encode invalidMethod)
    /\ response_body es <> Some (ResponseJSON.encode invalidContentType)
    /\ In (SetStatus codes.Error "invalid request method") (span_calls es)
    /\ ~ In (SetStatus codes.Error "invalid request content type")
           (span_calls es).
Proof.
  intros Ht Hm _. eexists _, _.
  split; [apply (ServeHTTP_run h t w r wd Ht)|].
  rewrite run_status, run_body.
  unfold run_events, dispatch_events.
  rewrite (outcome_invalid_method h t r wd Hm).
  split; [reflexivity|]. split; [discriminate|]. split; [reflexivity|].
  split.
  { cbn [envelope]. intros H. injection H as H. revert H.
    vm_compute. discriminate. }
  rewrite !span_calls_app. unfold written.
  destruct (http.write_result w _); cbn; split; auto 10;
    intros H; repeat (destruct H as [H|H]; [discriminate H|]); exact H.
Qed.


(** C2. A POST request with [Content-Type: application/yaml], handled
    while every registered processor returns success (there may be
    none), is answered with status 200 and the envelope [{success:true,
    message:"Configuration received", id}], where [id] is the identifier
    drawn for this request: it is not the nil UUID, and its text in the
    body parses back to it.  All processors were invoked, in order. *)
Theorem success_200 (h : Create) t w r (wd : World) :
  tracer h = Some t ->
  http.Method r = "POST" ->
  http.Get (http.Header_ r) "Content-Type" = "application/yaml" ->
  first_failure (dispatch_context t r) (processors h) (body wd) (pstate wd)
    = None ->
  exists wd' es id,
    ServeHTTP h w r wd = Some (tt, wd', es)
    /\ id = UUID.New (random wd 0)
    /\ In (NewUUID id) es
    /\ response_status es = Some 200%Z
    /\ carries es {| Success := true; Message := "Configuration received";
                     ID := id |}
    /\ id <> UUID.Nil
    /\ UUID.Parse (UUID.String id) = Some id
    /\ invoked es = seq 0 (length (processors h)).
Proof.
  intros Ht Hm Hct Hff. eexists _, _, _.
  split; [apply (ServeHTTP_run h t w r wd Ht)|].
  split; [reflexivity|].
  pose proof (run_carries h t w r wd) as Hc.
  rewrite run_status, run_invoked. unfold called.
  rewrite (outcome_dispatch h t r wd Hm Hct) in *. rewrite Hff in *.
  split; [unfold run_events, prologue; cbn; auto|].
  split; [reflexivity|]. split; [exact Hc|].
  split; [apply UUIDFacts.New_not_Nil|].
  split; [apply UUIDFacts.Parse_String|reflexivity].
Qed.

(** C8. Two valid requests, each handled while some processor fails,
    with whatever error texts [e1] and [e2]: the calls made on the
    response writer are the same in both runs, status 500 and the fixed
    body with "Failed to process configuration".  The error text goes to
    the span of its run, as the description of its status. *)
Theorem processor_error_not_leaked (h1 h2 : Create) t1 t2 w r
    (wd1 wd2 : World) k1 e1 k2 e2 :
  tracer h1 = Some t1 ->
  tracer h2 = Some t2 ->
  http.Method r = "POST" ->
  http.Get (http.Header_ r) "Content-Type" = "application/yaml" ->
  first_failure (dispatch_context t1 r) (processors h1) (body wd1) (pstate wd1)
    = Some (k1, e1) ->
  first_failure (dispatch_context t2 r) (processors h2) (body wd2) (pstate wd2)
    = Some (k2, e2) ->
  exists wd1' es1 wd2' es2,
    ServeHTTP h1 w r wd1 = Some (tt, wd1', es1)
    /\ ServeHTTP h2 w r wd2 = Some (tt, wd2', es2)
    /\ writer_calls es1 = writer_calls es2
    /\ response_status es1 = Some 500%Z
    /\ response_body es1 = Some (ResponseJSON.encode failedToProcess)
    /\ In (SetStatus codes.Error e1) (span_calls es1)
    /\ In (SetStatus codes.Error e2) (span_calls es2).
Proof.
  intros Ht1 Ht2 Hm Hct Hff1 Hff2. eexists _, _, _, _.
  split; [apply (ServeHTTP_run h1 t1 w r wd1 Ht1)|].
  split; [apply (ServeHTTP_run h2 t2 w r wd2 Ht2)|].
  rewrite run_status, run_body, !run_writer_calls, !written_writer.
  unfold run_events, dispatch_events.
  rewrite (outcome_dispatch h1 t1 r wd1 Hm Hct), Hff1.
  rewrite (outcome_dispatch h2 t2 r wd2 Hm Hct), Hff2.
  repeat split; try reflexivity;
    rewrite !span_calls_app, calls_span; cbn; auto.
Qed.

Lemma in_writer_calls (es : list Event) (c : http.Call) :
  In (OnWriter c) es -> In c (writer_calls es).
Proof.
  induction es as [|e es IH]; [intros []|].
  intros [->|Hin]; [now left|].
  specialize (IH Hin). unfold writer_calls in *. cbn [omap].
  destruct e; try exact IH. now right.
Qed.

Lemma run_span_calls (h : Create) t w r (wd : World) :
  span_calls (run_events h t w r wd) =
  (span_calls (prologue t r (UUID.New (random wd 0)))
   ++ span_calls (dispatch_events h t r wd)
   ++ span_calls
        (written (mkSpan t "CreateConfig") w (statusCode (outcome h t r wd))
           (envelope (outcome h t r wd) (UUID.New (random wd 0))))
   ++ [End_])%list.
Proof. unfold run_events. now rewrite !span_calls_app. Qed.

(** C5, as the code has it.  When the [Write] of the response bytes
    returns an error, the span records that error and is marked errored
    with "failed to write response" (the last two calls on the span
    before it ends), and the bytes are not written again: there is one
    [Write] call in all.  The handler then makes one more call on the
    writer, [http.Error(w, "Failed to write response", 500)]. *)
Theorem write_failure_reported (h : Create) t w r (wd wd' : World) es p err :
  tracer h = Some t ->
  ServeHTTP h w r wd = Some (tt, wd', es) ->
  In (OnWriter (http.Write p (Some err))) es ->
  (exists before,
     span_calls es =
     (before ++ [RecordError err;
                 SetStatus codes.Error "failed to write response";
                 End_])%list)
  /\ writes (writer_calls es) = 1
  /\ after_failed_write (writer_calls es) =
     [http.Error "Failed to write response" http.StatusInternalServerError].
Proof.
  intros Ht Hrun Hin. rewrite (ServeHTTP_run h t w r wd Ht) in Hrun.
  injection Hrun as _ <-.
  apply in_writer_calls in Hin.
  rewrite run_span_calls, run_writer_calls, written_writer in *.
  unfold written.
  destruct (http.write_result w _) as [err'|] eqn:Hw; cbn [In] in Hin.
  - destruct Hin as [Hin|[Hin|[Hin|[Hin|[]]]]]; try discriminate Hin.
    injection Hin as _ ->. split; [|split; reflexivity].
    exists (span_calls (prologue t r (UUID.New (random wd 0)))
            ++ span_calls (dispatch_events h t r wd))%list.
    rewrite <- app_assoc. reflexivity.
  - destruct Hin as [Hin|[Hin|[Hin|[]]]]; discriminate Hin.
Qed.


(** C10. The body of every failure response, be it for the method, for
    the content type or for a processor, is the JSON object with the
    three fields [success], [message] and [id], in which [id] is present
    and is the text of the nil UUID. *)
Theorem failure_body_has_nil_id (h : Create) t w r (wd : World) :
  tracer h = Some t ->
  rejected h t r wd ->
  exists wd' es msg,
    ServeHTTP h w r wd = Some (tt, wd', es)
    /\ In msg ["Invalid request method"; "Invalid content type";
               "Failed to process configuration"]
    /\ response_body es =
       Some ("{" ++ quoted "success" ++ ":false," ++
             quoted "message" ++ ":" ++ quoted msg ++ "," ++
             quoted "id" ++ ":" ++
             quoted "00000000-0000-0000-0000-000000000000" ++ "}")
    /\ UUID.String UUID.Nil = "00000000-0000-0000-0000-000000000000"
    /\ response_status es <> Some http.StatusOK.
Proof.
  intros Ht Hrej. apply rejected_outcome in Hrej.
  exists (final_world h t r wd), (run_events h t w r wd).
  exists (Message (envelope (outcome h t r wd) UUID.Nil)).
  split; [exact (ServeHTTP_run h t w r wd Ht)|].
  rewrite run_body, run_status.
  destruct (outcome h t r wd); [now elim Hrej| | |];
    cbn [envelope Message statusCode invalidMethod invalidContentType
         failedToProcess].
  - split; [cbn; auto|]. split; [|split; [reflexivity|discriminate]].
    rewrite OccursFacts.encode_invalidMethod. reflexivity.
  - split; [cbn; auto|]. split; [|split; [reflexivity|discriminate]].
    rewrite OccursFacts.encode_invalidContentType. reflexivity.
  - split; [cbn; auto|]. split; [|split; [reflexivity|discriminate]].
    rewrite OccursFacts.encode_failedToProcess. reflexivity.
Qed.

End RunFacts.

(** C9. Each of the four combinations of [success] and [message] that
    the handler sends, under any identifier, is marshalled without an
    error, and unmarshalling the bytes gives the same [Response] back:
    the same [success], the same [message], the same [id]. *)
Theorem envelope_roundtrip (resp : Response) :
  fixed_envelope resp = true ->
  exists data,
    ResponseJSON.Marshal resp = Ok data
    /\ forall init, ResponseJSON.Unmarshal data init = Some resp.
Proof.
  intros H. exists (ResponseJSON.encode resp). split; [reflexivity|].
  intros init. apply ResponseFacts.Unmarshal_encode.
  unfold fixed_envelope in H. destruct resp as [b msg id].
  cbn [Success Message] in *. destruct b.
  - apply String.eqb_eq in H as ->. reflexivity.
  - rewrite !orb_true_iff in H.
    destruct H as [[H|H]|H]; apply String.eqb_eq in H as ->; reflexivity.
Qed.

(** Against C5 as it is worded, that after a failed [Write] nothing more
    is sent to the caller: in the run [Broken.es] a [Write] fails, and a
    call on the writer follows it. *)
Lemma write_failure_counterexample :
  (exists p err, In (OnWriter (http.Write p (Some err))) Broken.es)
  /\ after_failed_write (writer_calls Broken.es) <> [].
Proof.
  split.
  - eexists _, _. vm_compute. do 7 right. left. reflexivity.
  - vm_compute. discriminate.
Qed.

(* ===================================================================== *)
(** * The tests of [create_test.go], and the contract at work *)
(* ===================================================================== *)

(** [TestNewHandler]: a new handler has a tracer, whatever the options. *)
Lemma NewHandler_tracer {State : Type} (opts : list (Create State -> Create State)) :
  exists t, tracer (NewHandler opts) = Some t.
Proof.
  unfold NewHandler.
  destruct (tracer (fold_left _ opts _)) as [t|] eqn:H; [exists t|eexists];
    [rewrite H|]; reflexivity.
Qed.

(** [TestWithProcessors]. *)
Example TestWithProcessors :
  length (processors Test.oneMock) = 1.
Proof. reflexivity. Qed.

(** [TestCreateInvalidMethod]. *)
Example TestCreateInvalidMethod :
  response_status
    (events_of (ServeHTTP (NewHandler []) Test.NewRecorder Test.getRequest
                  (Test.world Test.payload 0 Test.rnd)))
  = Some http.StatusMethodNotAllowed.
Proof. vm_compute. reflexivity. Qed.

(** [TestCreateInvalidContentType]. *)
Example TestCreateInvalidContentType :
  response_status
    (events_of (ServeHTTP (NewHandler []) Test.NewRecorder Test.jsonPost
                  (Test.world Test.payload 0 Test.rnd)))
  = Some http.StatusBadRequest.
Proof. vm_compute. reflexivity. Qed.

(** [TestCreate]: status 200, the mock was called, and the body
    unmarshals to [success] and "Configuration received". *)
Example TestCreate :
  exists wd' es respBody resp,
    ServeHTTP Test.oneMock Test.NewRecorder Test.yamlPost
      (Test.world Test.payload 1 Test.rnd) = Some (tt, wd', es)
    /\ response_status es = Some http.StatusOK
    /\ pstate wd' = [true]
    /\ response_body es = Some respBody
    /\ ResponseJSON.Unmarshal respBody zeroResponse = Some resp
    /\ Success resp = true
    /\ Message resp = "Configuration received".
Proof.
  eexists _, _, _, _. split; [vm_compute; reflexivity|].
  split; [reflexivity|]. split; [reflexivity|]. split; [reflexivity|].
  split; [vm_compute; reflexivity|]. split; reflexivity.
Qed.

(** [TestFailedToProcess]: status 500, the mock was called, and the body
    unmarshals to no [success] and "Failed to process configuration". *)
Example TestFailedToProcess :
  exists wd' es respBody resp,
    ServeHTTP Test.failingMock Test.NewRecorder Test.yamlPost
      (Test.world Test.payload 1 Test.rnd) = Some (tt, wd', es)
    /\ response_status es = Some http.StatusInternalServerError
    /\ pstate wd' = [true]
    /\ response_body es = Some respBody
    /\ ResponseJSON.Unmarshal respBody zeroResponse = Some resp
    /\ Success resp = false
    /\ Message resp = "Failed to process configuration".
Proof.
  eexists _, _, _, _. split; [vm_compute; reflexivity|].
  split; [reflexivity|]. split; [reflexivity|]. split; [reflexivity|].
  split; [vm_compute; reflexivity|]. split; reflexivity.
Qed.

(** No processors at all: the request is received. *)
Example zero_processors_200 :
  response_status
    (events_of (ServeHTTP (NewHandler []) Test.NewRecorder Test.yamlPost
                  (Test.world Test.payload 0 Test.rnd)))
  = Some http.StatusOK.
Proof. vm_compute. reflexivity. Qed.

(** A handler without a tracer panics on its first call. *)
Example nil_tracer_panics :
  ServeHTTP {| tracer := None; processors := [] |} Test.NewRecorder
    Test.yamlPost (Test.world Test.payload 0 Test.rnd) = None.
Proof. reflexivity. Qed.

(** The call-count check: of three processors of which the second fails,
    the first two are called and the third is not. *)
Example third_mock_not_called :
  exists wd' es,
    ServeHTTP Test.threeMocks Test.NewRecorder Test.yamlPost
      (Test.world Test.payload 3 Test.rnd) = Some (tt, wd', es)
    /\ pstate wd' = [true; true; false]
    /\ invoked es = [0; 1].
Proof. eexists _, _. split; [vm_compute; reflexivity|]. split; reflexivity. Qed.

(** ** Witnesses: the contract applied to the requests of the tests *)

Lemma invalid_method_405_witness :
  http.Method Test.getRequest <> "POST"
  /\ exists wd' es,
       ServeHTTP Test.oneMock Test.NewRecorder Test.getRequest
         (Test.world Test.payload 1 Test.rnd) = Some (tt, wd', es)
       /\ response_status es = Some 405%Z
       /\ carries es {| Success := false; Message := "Invalid request method";
                        ID := UUID.Nil |}
       /\ invoked es = []
       /\ body wd' = Test.payload /\ pstate wd' = [false].
Proof.
  assert (Hm : http.Method Test.getRequest <> "POST") by (vm_compute; discriminate).
  split; [exact Hm|].
  apply (invalid_method_405 Test.oneMock "config" Test.NewRecorder
           Test.getRequest (Test.world Test.payload 1 Test.rnd));
    [reflexivity | exact Hm].
Defined.

Lemma invalid_content_type_400_witness :
  http.Get (http.Header_ Test.jsonPost) "Content-Type" <> "application/yaml"
  /\ exists wd' es,
       ServeHTTP Test.oneMock Test.NewRecorder Test.jsonPost
         (Test.world Test.payload 1 Test.rnd) = Some (tt, wd', es)
       /\ response_status es = Some 400%Z
       /\ carries es {| Success := false; Message := "Invalid content type";
                        ID := UUID.Nil |}
       /\ invoked es = []
       /\ body wd' = Test.payload /\ pstate wd' = [false].
Proof.
  assert (Hc : http.Get (http.Header_ Test.jsonPost) "Content-Type"
               <> "application/yaml") by (vm_compute; discriminate).
  split; [exact Hc|].
  apply (invalid_content_type_400 Test.oneMock "config" Test.NewRecorder
           Test.jsonPost (Test.world Test.payload 1 Test.rnd));
    [reflexivity | reflexivity | exact Hc].
Defined.

Lemma method_checked_first_witness :
  (http.Method Test.getRequest <> "POST"
   /\ http.Get (http.Header_ Test.getRequest) "Content-Type"
      <> "application/yaml")
  /\ exists wd' es,
       ServeHTTP Test.oneMock Test.NewRecorder Test.getRequest
         (Test.world Test.payload 1 Test.rnd) = Some (tt, wd', es)
       /\ response_status es = Some http.StatusMethodNotAllowed
       /\ response_status es <> Some http.StatusBadRequest
       /\ response_body es = Some (ResponseJSON.encode invalidMethod)
       /\ response_body es <> Some (ResponseJSON.encode invalidContentType)
       /\ In (SetStatus codes.Error "invalid request method") (span_calls es)
       /\ ~ In (SetStatus codes.Error "invalid request content type")
              (span_calls es).
Proof.
  assert (Hm : http.Method Test.getRequest <> "POST") by (vm_compute; discriminate).
  assert (Hc : http.Get (http.Header_ Test.getRequest) "Content-Type"
               <> "application/yaml") by (vm_compute; discriminate).
  split; [split; assumption|].
  apply (method_checked_first Test.oneMock "config" Test.NewRecorder
           Test.getRequest (Test.world Test.payload 1 Test.rnd));
    [reflexivity | exact Hm | exact Hc].
Defined.


Lemma success_200_witness :
  first_failure (dispatch_context "config" Test.yamlPost)
    (processors Test.oneMock) Test.payload [false] = None
  /\ exists wd' es id,
       ServeHTTP Test.oneMock Test.NewRecorder Test.yamlPost
         (Test.world Test.payload 1 Test.rnd) = Some (tt, wd', es)
       /\ id = UUID.New Test.rnd
       /\ In (NewUUID id) es
       /\ response_status es = Some 200%Z
       /\ carries es {| Success := true; Message := "Configuration received";
                        ID := id |}
       /\ id <> UUID.Nil
       /\ UUID.Parse (UUID.String id) = Some id
       /\ invoked es = [0].
Proof.
  split; [reflexivity|].
  apply (success_200 Test.oneMock "config" Test.NewRecorder Test.yamlPost
           (Test.world Test.payload 1 Test.rnd));
    reflexivity.
Defined.

Lemma processor_error_not_leaked_witness :
  Test.AnError <> "disk full"
  /\ exists wd1' es1 wd2' es2,
       ServeHTTP Test.threeMocks Test.NewRecorder Test.yamlPost
         (Test.world Test.payload 3 Test.rnd) = Some (tt, wd1', es1)
       /\ ServeHTTP Test.otherFailure Test.NewRecorder Test.yamlPost
            (Test.world Test.payload 2 UUID.Nil) = Some (tt, wd2', es2)
       /\ writer_calls es1 = writer_calls es2
       /\ response_status es1 = Some 500%Z
       /\ response_body es1 = Some (ResponseJSON.encode failedToProcess)
       /\ In (SetStatus codes.Error Test.AnError) (span_calls es1)
       /\ In (SetStatus codes.Error "disk full") (span_calls es2).
Proof.
  split; [vm_compute; discriminate|].
  apply (processor_error_not_leaked Test.threeMocks Test.otherFailure
           "config" "other" Test.NewRecorder Test.yamlPost
           (Test.world Test.payload 3 Test.rnd)
           (Test.world Test.payload 2 UUID.Nil) 1 Test.AnError 0 "disk full");
    reflexivity.
Defined.

Lemma write_failure_reported_witness :
  (exists before,
     span_calls Broken.es =
     (before ++ [RecordError "write: broken pipe";
                 SetStatus codes.Error "failed to write response";
                 End_])%list)
  /\ writes (writer_calls Broken.es) = 1
  /\ after_failed_write (writer_calls Broken.es) =
     [http.Error "Failed to write response" http.StatusInternalServerError].
Proof.
  apply (write_failure_reported Broken.h "config" Test.brokenWriter Broken.r
           Broken.wd (drawn Broken.wd) Broken.es
           (ResponseJSON.encode invalidMethod) "write: broken pipe").
  - reflexivity.
  - vm_compute. reflexivity.
  - vm_compute. tauto.
Defined.


Lemma envelope_roundtrip_witness :
  fixed_envelope (received (UUID.New Test.rnd)) = true
  /\ exists data,
       ResponseJSON.Marshal (received (UUID.New Test.rnd)) = Ok data
       /\ forall init,
            ResponseJSON.Unmarshal data init = Some (received (UUID.New Test.rnd)).
Proof.
  split; [reflexivity|].
  apply (envelope_roundtrip (received (UUID.New Test.rnd))). reflexivity.
Defined.

Lemma failure_body_has_nil_id_witness :
  rejected Test.failingMock "config" Test.yamlPost
    (Test.world Test.payload 1 Test.rnd)
  /\ exists wd' es msg,
       ServeHTTP Test.failingMock Test.NewRecorder Test.yamlPost
         (Test.world Test.payload 1 Test.rnd) = Some (tt, wd', es)
       /\ In msg ["Invalid request method"; "Invalid content type";
                  "Failed to process configuration"]
       /\ response_body es =
          Some ("{" ++ quoted "success" ++ ":false," ++
                quoted "message" ++ ":" ++ quoted msg ++ "," ++
                quoted "id" ++ ":" ++
                quoted "00000000-0000-0000-0000-000000000000" ++ "}")
       /\ UUID.String UUID.Nil = "00000000-0000-0000-0000-000000000000"
       /\ response_status es <> Some http.StatusOK.
Proof.
  assert (Hr : rejected Test.failingMock "config" Test.yamlPost
                 (Test.world Test.payload 1 Test.rnd)).
  { right. right. vm_compute. discriminate. }
  split; [exact Hr|].
  apply (failure_body_has_nil_id Test.failingMock "config" Test.NewRecorder
           Test.yamlPost (Test.world Test.payload 1 Test.rnd));
    [reflexivity | exact Hr].
Defined.

(* ===================================================================== *)
(** * Beyond the contract: construction *)
(* ===================================================================== *)

Section Construction.

Context {State : Type}.

Lemma fold_keeps_tracer (more : list (Create State -> Create State)) (h : Create State) :
  (forall opt, In opt more -> keeps_tracer opt) ->
  tracer (fold_left (fun h opt => opt h) more h) = tracer h.
Proof.
  revert h. induction more as [|o more IH]; intros h H; [reflexivity|].
  cbn [fold_left]. rewrite IH.
  - apply (H o). now left.
  - intros opt Hin. apply H. now right.
Qed.

Lemma fold_keeps_processors (more : list (Create State -> Create State)) (h : Create State) :
  (forall opt, In opt more -> keeps_processors opt) ->
  processors (fold_left (fun h opt => opt h) more h) = processors h.
Proof.
  revert h. induction more as [|o more IH]; intros h H; [reflexivity|].
  cbn [fold_left]. rewrite IH.
  - apply (H o). now left.
  - intros opt Hin. apply H. now right.
Qed.

(** [NewHandler] changes the processors the options left in no way. *)
Lemma NewHandler_processors (opts : list (Create State -> Create State)) :
  processors (NewHandler opts) =
  processors (fold_left (fun h opt => opt h) opts
                {| tracer := None; processors := [] |}).
Proof.
  unfold NewHandler.
  destruct (tracer (fold_left (fun h opt => opt h) opts
                      {| tracer := None; processors := [] |})); reflexivity.
Qed.

(** Its tracer is the one the options left, or the default. *)
Lemma NewHandler_tracer_cases (opts : list (Create State -> Create State)) :
  tracer (NewHandler opts) =
  match tracer (fold_left (fun h opt => opt h) opts
                  {| tracer := None; processors := [] |}) with
  | Some t => Some t
  | None => Some (otel_Tracer "config")
  end.
Proof.
  unfold NewHandler.
  destruct (tracer (fold_left (fun h opt => opt h) opts
                      {| tracer := None; processors := [] |})) eqn:H;
    [exact H|reflexivity].
Qed.

Lemma WithTracer_keeps_processors (t : option Tracer) :
  keeps_processors (WithTracer (State := State) t).
Proof. intros h. reflexivity. Qed.

Lemma WithProcessors_keeps_tracer (ps : list (Processor State)) :
  keeps_tracer (WithProcessors ps).
Proof. intros h. reflexivity. Qed.

(** X1. A handler made by [NewHandler], with whatever options (an option
    may even set the tracer to nil), serves every request: [ServeHTTP]
    does not panic, and the response has one of the four status codes
    200, 400, 405 and 500. *)
Theorem constructed_handler_serves (opts : list (Create State -> Create State)) w r
    (wd : World State) :
  exists wd' es code,
    ServeHTTP (NewHandler opts) w r wd = Some (tt, wd', es)
    /\ response_status es = Some code
    /\ In code [200; 400; 405; 500]%Z.
Proof.
  assert (Ht : exists t, tracer (NewHandler opts) = Some t).
  { rewrite NewHandler_tracer_cases.
    destruct (tracer (fold_left (fun h opt => opt h) opts
                        {| tracer := None; processors := [] |})); eauto. }
  destruct Ht as [t Ht].
  eexists _, _, _. split; [exact (ServeHTTP_run _ t w r wd Ht)|].
  split; [apply run_status|].
  destruct (outcome (NewHandler opts) t r wd); cbn; auto.
Qed.

(** X2. When no option touches the tracer, the handler gets the default
    tracer, the one named "config". *)
Theorem default_tracer_is_config (opts : list (Create State -> Create State)) :
  (forall opt, In opt opts -> keeps_tracer opt) ->
  tracer (NewHandler opts) = Some "config".
Proof.
  intros H. rewrite NewHandler_tracer_cases.
  now rewrite (fold_keeps_tracer opts _ H).
Qed.

(** X3. The tracer given to [WithTracer] is the tracer of the handler,
    whatever options came before and as long as no later option sets
    another; the processors are those of the handler built without this
    option.  A nil tracer given last leaves the handler with the default
    one. *)
Theorem WithTracer_sets_tracer (opts more : list (Create State -> Create State))
    (t : Tracer) :
  (forall opt, In opt more -> keeps_tracer opt) ->
  tracer (NewHandler (opts ++ WithTracer (Some t) :: more)) = Some t
  /\ processors (NewHandler (opts ++ [WithTracer (Some t)]))
     = processors (NewHandler opts)
  /\ tracer (NewHandler (opts ++ [WithTracer None])) = Some "config".
Proof.
  intros H. split; [|split].
  - rewrite NewHandler_tracer_cases, fold_left_app. cbn [fold_left].
    now rewrite (fold_keeps_tracer more _ H).
  - rewrite !NewHandler_processors, fold_left_app. reflexivity.
  - rewrite NewHandler_tracer_cases, fold_left_app. reflexivity.
Qed.

(** X4. [WithProcessors] assigns the whole list: the processors of the
    handler are exactly those of the last [WithProcessors], whatever
    options, other lists of processors among them, came before it; the
    tracer is the one of the handler built without this option. *)
Theorem WithProcessors_replaces (opts more : list (Create State -> Create State))
    (ps : list (Processor State)) :
  (forall opt, In opt more -> keeps_processors opt) ->
  processors (NewHandler (opts ++ WithProcessors ps :: more)) = ps
  /\ tracer (NewHandler (opts ++ [WithProcessors ps]))
     = tracer (NewHandler opts).
Proof.
  intros H. split.
  - rewrite NewHandler_processors, fold_left_app. cbn [fold_left].
    now rewrite (fold_keeps_processors more _ H).
  - rewrite !NewHandler_tracer_cases, fold_left_app. reflexivity.
Qed.

End Construction.

(* ===================================================================== *)
(** * Beyond the contract: runs *)
(* ===================================================================== *)

Section MoreRuns.

Context {State : Type}.

#[local] Opaque ResponseJSON.encode.

(** An observer that looks at no processor call sees nothing of them. *)
Lemma omap_calls {B : Type} (f : Event -> option B) ctx i
    (ps : list (Processor State)) b s :
  (forall j c e, f (ProcessCall j c e) = None) ->
  omap f (calls ctx i ps b s) = [].
Proof.
  intros Hf. revert i b s.
  induction ps as [|p rest IH]; intros i b s; [reflexivity|].
  cbn [calls]. destruct (Process p ctx b s) as [[b' s'] [e|]];
    simpl; rewrite Hf; [reflexivity|apply IH].
Qed.

Lemma called_le ctx (ps : list (Processor State)) b s :
  called ctx ps b s <= length ps.
Proof.
  unfold called.
  destruct (first_failure ctx ps b s) as [[k e]|] eqn:H; [|lia].
  pose proof (first_failure_bound _ _ _ _ _ _ H). lia.
Qed.

Lemma calls_contexts ctx i (ps : list (Processor State)) b s :
  contexts (calls ctx i ps b s) = replicate (called ctx ps b s) ctx.
Proof.
  unfold called. revert i b s.
  induction ps as [|p rest IH]; intros i b s; [reflexivity|].
  cbn [calls first_failure].
  destruct (Process p ctx b s) as [[b' s'] [e|]]; [reflexivity|].
  change (contexts (ProcessCall i ctx None :: calls ctx (S i) rest b' s'))
    with (ctx :: contexts (calls ctx (S i) rest b' s')).
  rewrite IH.
  destruct (first_failure ctx rest b' s') as [[k e]|]; reflexivity.
Qed.

(** The state the calls leave is the state of threading the processors
    that were called. *)
Lemma after_calls_thread ctx (ps : list (Processor State)) b s :
  after_calls ctx ps b s = thread ctx (take (called ctx ps b s) ps) (b, s).
Proof.
  unfold called, thread. revert b s.
  induction ps as [|p rest IH]; intros b s; [reflexivity|].
  cbn [after_calls first_failure].
  destruct (Process p ctx b s) as [[b' s'] [e|]] eqn:Hp.
  - cbn [take fold_left]. unfold step. cbn [fst snd]. now rewrite Hp.
  - rewrite IH.
    destruct (first_failure ctx rest b' s') as [[k e]|];
      cbn [take fold_left length]; unfold step; cbn [fst snd];
      now rewrite Hp.
Qed.

Lemma run_length_invoked (h : Create State) t w r (wd : World State) :
  length (invoked (run_events h t w r wd)) =
  match outcome h t r wd with
  | FailedInvalidMethod | FailedInvalidContentType => 0
  | _ => called (dispatch_context t r) (processors h) (body wd) (pstate wd)
  end.
Proof.
  rewrite run_invoked.
  destruct (outcome h t r wd); try reflexivity; apply length_seq.
Qed.

(** X5. Every request starts one span, named [CreateConfig], as its
    first event, and ends it as its last event; the span is ended once,
    on the success path, on each failure path, and when the response
    cannot be written. *)
Theorem span_started_and_ended_once (h : Create State) t w r
    (wd : World State) :
  tracer h = Some t ->
  exists wd' es mid,
    ServeHTTP h w r wd = Some (tt, wd', es)
    /\ es = (TracerStart t (http.Context_ r) "CreateConfig" :: mid
             ++ [OnSpan (mkSpan t "CreateConfig") End_])%list
    /\ started es = ["CreateConfig"]
    /\ ends (span_calls es) = 1.
Proof.
  intros Ht.
  exists (final_world h t r wd), (run_events h t w r wd).
  exists (NewUUID (UUID.New (random wd 0))
          :: OnSpan (mkSpan t "CreateConfig")
               (SetAttributes
                  (attribute.Stringer "id" (UUID.New (random wd 0))))
          :: dispatch_events h t r wd
          ++ written (mkSpan t "CreateConfig") w
               (statusCode (outcome h t r wd))
               (envelope (outcome h t r wd) (UUID.New (random wd 0))))%list.
  split; [exact (ServeHTTP_run h t w r wd Ht)|].
  split.
  { unfold run_events, prologue. cbn [app]. now rewrite !app_assoc. }
  unfold started, ends, span_calls, run_events, dispatch_events, written.
  rewrite !omap_app, !length_app.
  destruct (outcome h t r wd);
    rewrite ?omap_app, ?length_app, ?omap_calls by reflexivity;
    destruct (http.write_result w _); split; reflexivity.
Qed.

(** X6. When the writer accepts the bytes, one response is written per
    request and nothing else: the calls on the writer are the
    [Content-Type: application/json] header, the status line and one
    [Write] of the body, in this order; the body is one of the four fixed
    envelopes. *)
Theorem one_response_per_request (h : Create State) t w r (wd : World State) :
  tracer h = Some t ->
  (forall p, http.write_result w p = None) ->
  exists wd' es code resp,
    ServeHTTP h w r wd = Some (tt, wd', es)
    /\ writer_calls es =
       [http.HeaderSet "Content-Type" "application/json";
        http.WriteHeader code;
        http.Write (ResponseJSON.encode resp) None]
    /\ fixed_envelope resp = true
    /\ writes (writer_calls es) = 1.
Proof.
  intros Ht Hw.
  eexists _, _, _, _. split; [exact (ServeHTTP_run h t w r wd Ht)|].
  rewrite run_writer_calls, written_writer, Hw.
  split; [reflexivity|]. split; [apply envelope_fixed|reflexivity].
Qed.

(** X7. The status tells the outcome, and nothing else does: 405 is sent
    exactly for a method other than POST; 400 exactly for a POST whose
    content type is not [application/yaml]; 500 exactly for a valid
    request during which a processor fails; 200 exactly for a valid
    request during which none fails. *)
Theorem status_tells_outcome (h : Create State) t w r (wd : World State) :
  tracer h = Some t ->
  exists wd' es,
    ServeHTTP h w r wd = Some (tt, wd', es)
    /\ (response_status es = Some 405%Z <-> http.Method r <> "POST")
    /\ (response_status es = Some 400%Z <->
        http.Method r = "POST"
        /\ http.Get (http.Header_ r) "Content-Type" <> "application/yaml")
    /\ (response_status es = Some 500%Z <->
        http.Method r = "POST"
        /\ http.Get (http.Header_ r) "Content-Type" = "application/yaml"
        /\ first_failure (dispatch_context t r) (processors h)
             (body wd) (pstate wd) <> None)
    /\ (response_status es = Some 200%Z <->
        http.Method r = "POST"
        /\ http.Get (http.Header_ r) "Content-Type" = "application/yaml"
        /\ first_failure (dispatch_context t r) (processors h)
             (body wd) (pstate wd) = None).
Proof.
  intros Ht.
  eexists _, _. split; [exact (ServeHTTP_run h t w r wd Ht)|].
  rewrite run_status. unfold outcome.
  destruct (String.eqb (http.Method r) "POST") eqn:Hm;
    [apply String.eqb_eq in Hm | apply String.eqb_neq in Hm]; cbn [negb].
  2: { cbn [statusCode]. repeat split; try discriminate; try tauto;
       intros; tauto. }
  destruct (String.eqb (http.Get (http.Header_ r) "Content-Type")
              "application/yaml") eqn:Hc;
    [apply String.eqb_eq in Hc | apply String.eqb_neq in Hc]; cbn [negb].
  2: { cbn [statusCode]. repeat split; try discriminate; try tauto;
       intros; tauto. }
  destruct (first_failure (dispatch_context t r) (processors h) (body wd)
              (pstate wd)) as [[k e]|]; cbn [statusCode];
    repeat split; try discriminate; try tauto; try congruence;
    intros; try tauto; intuition congruence.
Qed.

(** X8. The processors are invoked at most once each and in the order
    of registration, from the first on without a gap; none is invoked
    for a request that fails the method or the content-type check. *)
Theorem processors_in_order_once (h : Create State) t w r (wd : World State) :
  tracer h = Some t ->
  exists wd' es n,
    ServeHTTP h w r wd = Some (tt, wd', es)
    /\ invoked es = seq 0 n
    /\ n <= length (processors h)
    /\ NoDup (invoked es)
    /\ (n <> 0 ->
        http.Method r = "POST"
        /\ http.Get (http.Header_ r) "Content-Type" = "application/yaml").
Proof.
  intros Ht.
  exists (final_world h t r wd), (run_events h t w r wd).
  exists (length (invoked (run_events h t w r wd))).
  split; [exact (ServeHTTP_run h t w r wd Ht)|].
  rewrite run_length_invoked, run_invoked. unfold outcome.
  destruct (String.eqb (http.Method r) "POST") eqn:Hm;
    [apply String.eqb_eq in Hm | clear Hm]; cbn [negb].
  2: { repeat split; try reflexivity; try lia; constructor. }
  destruct (String.eqb (http.Get (http.Header_ r) "Content-Type")
              "application/yaml") eqn:Hc;
    [apply String.eqb_eq in Hc | clear Hc]; cbn [negb].
  2: { repeat split; try reflexivity; try lia; constructor. }
  pose proof (called_le (dispatch_context t r) (processors h) (body wd)
                (pstate wd)) as Hle.
  destruct (first_failure (dispatch_context t r) (processors h) (body wd)
              (pstate wd)) as [[k e]|];
    repeat split; try reflexivity; try assumption; apply NoDup_seq.
Qed.

Lemma context_not_own_child (c : Context) (t : Tracer) (n : string) :
  c <> WithSpan c t n.
Proof.
  induction c as [k|c IH t' n']; intros H; [discriminate H|].
  injection H as H1 H2 H3. apply IH. rewrite H2, H3 in H1. exact H1.
Qed.

(** X9. Every processor is called with the context that starting the
    span returned, a child of the context of the request; none is
    called with the context of the request itself. *)
Theorem processors_get_span_context (h : Create State) t w r
    (wd : World State) :
  tracer h = Some t ->
  exists wd' es,
    ServeHTTP h w r wd = Some (tt, wd', es)
    /\ contexts es =
       replicate (length (invoked es))
         (WithSpan (http.Context_ r) t "CreateConfig")
    /\ ~ In (http.Context_ r) (contexts es).
Proof.
  intros Ht.
  eexists _, _. split; [exact (ServeHTTP_run h t w r wd Ht)|].
  assert (Hc : contexts (run_events h t w r wd) =
               replicate (length (invoked (run_events h t w r wd)))
                 (WithSpan (http.Context_ r) t "CreateConfig")).
  { rewrite run_length_invoked.
    unfold contexts, run_events, dispatch_events, written.
    rewrite !omap_app.
    destruct (outcome h t r wd); rewrite ?omap_app;
      fold (contexts (calls (dispatch_context t r) 0 (processors h)
                        (body wd) (pstate wd)));
      rewrite ?calls_contexts;
      destruct (http.write_result w _); cbn [omap app];
      rewrite ?app_nil_r; reflexivity. }
  split; [exact Hc|]. rewrite Hc. intros Hin.
  apply list_elem_of_In, elem_of_replicate in Hin as [Heq _].
  exact (context_not_own_child _ _ _ Heq).
Qed.

(** X10. A POST that carries no [Content-Type] header, or an empty list
    of values for it, is treated as having the empty content type: it is
    answered with 400, the span records the attribute [content-type] with
    the empty string, and no processor is invoked. *)
Theorem missing_content_type_rejected (h : Create State) t w r
    (wd : World State) :
  tracer h = Some t ->
  http.Method r = "POST" ->
  http.Header_ r !! "Content-Type" = None
  \/ http.Header_ r !! "Content-Type" = Some [] ->
  exists wd' es,
    ServeHTTP h w r wd = Some (tt, wd', es)
    /\ response_status es = Some 400%Z
    /\ In (SetAttributes (attribute.String "content-type" EmptyString))
         (span_calls es)
    /\ invoked es = [].
Proof.
  intros Ht Hm Hh.
  assert (Hg : http.Get (http.Header_ r) "Content-Type" = EmptyString).
  { unfold http.Get. destruct Hh as [-> | ->]; reflexivity. }
  assert (Ho : outcome h t r wd = FailedInvalidContentType).
  { apply outcome_invalid_content_type; [exact Hm|]. rewrite Hg. discriminate. }
  eexists _, _. split; [exact (ServeHTTP_run h t w r wd Ht)|].
  rewrite run_status, run_invoked, run_span_calls.
  unfold dispatch_events. rewrite Ho, Hg.
  split; [reflexivity|]. split; [|reflexivity].
  rewrite !in_app_iff. right. left. cbn. auto.
Qed.

(** X11. Of several [Content-Type] values only the first counts: a POST
    is answered with 400 exactly when the first value is not
    [application/yaml], whatever values follow it. *)
Theorem first_content_type_decides (h : Create State) t w r
    (wd : World State) v vs :
  tracer h = Some t ->
  http.Method r = "POST" ->
  http.Header_ r !! "Content-Type" = Some (v :: vs) ->
  exists wd' es,
    ServeHTTP h w r wd = Some (tt, wd', es)
    /\ (response_status es = Some 400%Z <-> v <> "application/yaml").
Proof.
  intros Ht Hm Hh.
  assert (Hg : http.Get (http.Header_ r) "Content-Type" = v).
  { unfold http.Get. now rewrite Hh. }
  eexists _, _. split; [exact (ServeHTTP_run h t w r wd Ht)|].
  rewrite run_status. unfold outcome. rewrite Hg.
  apply String.eqb_eq in Hm. rewrite Hm. cbn [negb].
  destruct (String.eqb v "application/yaml") eqn:Hv;
    [apply String.eqb_eq in Hv | apply String.eqb_neq in Hv]; cbn [negb].
  - destruct (first_failure _ _ _ _) as [[k e]|]; cbn [statusCode];
      split; [discriminate | tauto | discriminate | tauto].
  - cbn [statusCode]. tauto.
Qed.

Lemma run_drawn_ids (h : Create State) t w r (wd : World State) :
  drawn_ids (run_events h t w r wd) = [UUID.New (random wd 0)].
Proof.
  unfold drawn_ids, run_events, dispatch_events, written.
  rewrite !omap_app.
  destruct (outcome h t r wd);
    rewrite ?omap_app, ?omap_calls by reflexivity;
    destruct (http.write_result w _); reflexivity.
Qed.

Lemma run_error_statuses (h : Create State) t w r (wd : World State) :
  error_statuses (span_calls (run_events h t w r wd)) =
  (match outcome h t r wd with
   | Succeeded => []
   | FailedInvalidMethod => ["invalid request method"]
   | FailedInvalidContentType => ["invalid request content type"]
   | FailedProcessorError _ e => [e]
   end
   ++ match http.write_result w
              (ResponseJSON.encode
                 (envelope (outcome h t r wd) (UUID.New (random wd 0)))) with
      | Some _ => ["failed to write response"]
      | None => []
      end)%list.
Proof.
  rewrite run_span_calls. unfold dispatch_events, written, error_statuses.
  rewrite !omap_app.
  destruct (outcome h t r wd); rewrite ?span_calls_app, ?calls_span;
    destruct (http.write_result w _); reflexivity.
Qed.

Lemma run_write_errors (h : Create State) t w r (wd : World State) :
  write_errors (writer_calls (run_events h t w r wd)) =
  match http.write_result w
          (ResponseJSON.encode
             (envelope (outcome h t r wd) (UUID.New (random wd 0)))) with
  | Some e => [e]
  | None => []
  end.
Proof.
  rewrite run_writer_calls, written_writer.
  destruct (http.write_result w _); reflexivity.
Qed.

(** X12. The span is marked errored exactly when the response is not a
    200 or the response could not be written.  The statuses set are, in
    order, the reason of the failure (for a processor, its error text)
    and then "failed to write response": at most two, and none on a
    success that was written. *)
Theorem span_errored_iff (h : Create State) t w r (wd : World State) :
  tracer h = Some t ->
  exists wd' es,
    ServeHTTP h w r wd = Some (tt, wd', es)
    /\ (error_statuses (span_calls es) <> [] <->
        response_status es <> Some 200%Z
        \/ write_errors (writer_calls es) <> [])
    /\ length (error_statuses (span_calls es)) <= 2
    /\ (write_errors (writer_calls es) <> [] ->
        last (error_statuses (span_calls es))
        = Some "failed to write response").
Proof.
  intros Ht.
  eexists _, _. split; [exact (ServeHTTP_run h t w r wd Ht)|].
  rewrite run_error_statuses, run_status, run_write_errors.
  destruct (outcome h t r wd); cbn [statusCode];
    destruct (http.write_result w _); cbn;
    (split; [split|split; [lia|]]);
    first [ intros _; left; discriminate
          | intros _; right; discriminate
          | intros _; discriminate
          | intros _; reflexivity
          | intros H; now elim H
          | intros [H|H]; now elim H ].
Qed.


(** X14. Each request draws one identifier, by one call of [uuid.New],
    rejected requests included; two requests handled one after the other
    draw theirs from consecutive blocks of the random source. *)
Theorem one_identifier_per_request (h : Create State) t w r1 r2
    (wd : World State) :
  tracer h = Some t ->
  exists wd1 es1 wd2 es2,
    ServeHTTP h w r1 wd = Some (tt, wd1, es1)
    /\ ServeHTTP h w r2 wd1 = Some (tt, wd2, es2)
    /\ drawn_ids es1 = [UUID.New (random wd 0)]
    /\ drawn_ids es2 = [UUID.New (random wd 1)].
Proof.
  intros Ht.
  eexists _, _, _, _. split; [exact (ServeHTTP_run h t w r1 wd Ht)|].
  split; [exact (ServeHTTP_run h t w r2 _ Ht)|].
  rewrite !run_drawn_ids. split; [reflexivity|].
  unfold final_world. destruct (outcome h t r1 wd); reflexivity.
Qed.

(** X16. For a request that passes both checks, the body and the state
    left behind are those of calling the invoked processors one after the
    other on the one body stream, each starting where the one before it
    stopped; the processors that were not invoked left no trace. *)
Theorem processors_share_the_body (h : Create State) t w r
    (wd : World State) :
  tracer h = Some t ->
  http.Method r = "POST" ->
  http.Get (http.Header_ r) "Content-Type" = "application/yaml" ->
  exists wd' es,
    ServeHTTP h w r wd = Some (tt, wd', es)
    /\ (body wd', pstate wd') =
       thread (WithSpan (http.Context_ r) t "CreateConfig")
         (take (length (invoked es)) (processors h))
         (body wd, pstate wd).
Proof.
  intros Ht Hm Hc.
  eexists _, _. split; [exact (ServeHTTP_run h t w r wd Ht)|].
  rewrite run_length_invoked. unfold final_world.
  rewrite (outcome_dispatch h t r wd Hm Hc).
  fold (dispatch_context t r).
  destruct (first_failure (dispatch_context t r) (processors h) (body wd)
              (pstate wd)) as [[k e]|] eqn:Hff;
    rewrite <- after_calls_thread; unfold processed;
    cbn [body pstate drawn];
    now destruct (after_calls (dispatch_context t r) (processors h) (body wd)
                    (pstate wd)).
Qed.

(** X17. The body is not rewound between processors: behind a first
    processor that reads the body to its end, the second is called on an
    empty body, whatever the request carried. *)
Theorem drained_body_stays_empty (h : Create State) t w r
    (wd : World State) p rest :
  tracer h = Some t ->
  http.Method r = "POST" ->
  http.Get (http.Header_ r) "Content-Type" = "application/yaml" ->
  processors h = drain :: p :: rest ->
  exists wd' es,
    ServeHTTP h w r wd = Some (tt, wd', es)
    /\ In (ProcessCall 1 (WithSpan (http.Context_ r) t "CreateConfig")
             (snd (Process p (WithSpan (http.Context_ r) t "CreateConfig")
                     EmptyString (pstate wd))))
         es.
Proof.
  intros Ht Hm Hc Hps.
  eexists _, _. split; [exact (ServeHTTP_run h t w r wd Ht)|].
  unfold run_events. rewrite !in_app_iff. right. left.
  unfold dispatch_events. fold (dispatch_context t r).
  assert (Hin : In (ProcessCall 1 (dispatch_context t r)
                      (snd (Process p (dispatch_context t r) EmptyString
                              (pstate wd))))
                  (calls (dispatch_context t r) 0 (processors h) (body wd)
                     (pstate wd))).
  { rewrite Hps. cbn [calls drain Process].
    destruct (Process p (dispatch_context t r) EmptyString (pstate wd))
      as [[b' s'] [e|]]; cbn; auto. }
  destruct (outcome h t r wd) eqn:Ho; rewrite ?in_app_iff; auto.
  - rewrite (outcome_dispatch h t r wd Hm Hc) in Ho.
    destruct (first_failure _ _ _ _) as [[k e]|]; discriminate Ho.
  - rewrite (outcome_dispatch h t r wd Hm Hc) in Ho.
    destruct (first_failure _ _ _ _) as [[k e]|]; discriminate Ho.
Qed.

End MoreRuns.

(* ===================================================================== *)
(** * Beyond the contract: the mocks, and the shape of an identifier *)
(* ===================================================================== *)

Module MockFacts.

Import Mocks.

Lemma mocks_length i errs : length (mocks_from i errs) = length errs.
Proof.
  revert i. induction errs as [|e rest IH]; intros i; [reflexivity|].
  cbn [mocks_from length]. now rewrite IH.
Qed.

(** A loop over mocks calls them up to the first with an error. *)
Lemma mocks_called ctx i errs b s :
  called ctx (mocks_from i errs) b s = reached errs.
Proof.
  unfold called. revert i s.
  induction errs as [|e rest IH]; intros i s; [reflexivity|].
  cbn [mocks_from first_failure Test.mockProcessor Process reached length].
  destruct e as [e|]; [reflexivity|].
  specialize (IH (S i) (<[i:=true]> s)).
  destruct (first_failure ctx (mocks_from (S i) rest) b (<[i:=true]> s))
    as [[k e]|]; now rewrite <- IH.
Qed.

(** The flags after the calls: set for the mocks reached, as they were
    for the others; the body is not read. *)
Lemma mocks_after_calls ctx errs (pre : list bool) b :
  after_calls ctx (mocks_from (length pre) errs) b
    (pre ++ replicate (length errs) false)%list =
  (b, (pre ++ replicate (reached errs) true
           ++ replicate (length errs - reached errs) false)%list).
Proof.
  revert pre. induction errs as [|e rest IH]; intros pre; [reflexivity|].
  cbn [mocks_from after_calls Test.mockProcessor Process reached length
       replicate].
  replace (<[length pre:=true]>
             (pre ++ false :: replicate (length rest) false)%list)
    with ((pre ++ [true]) ++ replicate (length rest) false)%list.
  2: { rewrite <- (Nat.add_0_r (length pre)).
       rewrite insert_app_r. cbn. now rewrite <- app_assoc. }
  destruct e as [e|].
  - cbn [replicate app Nat.sub]. rewrite Nat.sub_0_r, <- app_assoc.
    reflexivity.
  - replace (S (length pre)) with (length (pre ++ [true])%list)
      by (rewrite length_app; cbn; lia).
    rewrite IH. cbn [replicate app Nat.sub]. now rewrite <- app_assoc.
Qed.

(** X15. The call-count check of the tests, for any number of mocks: a
    handler whose processors are mocks, none of them called before,
    serving a valid request, calls the mocks up to and including the
    first that returns an error (all of them when none does).  Afterwards
    exactly these have their [called] flag set, and the body is unread. *)
Theorem mocks_called_up_to_first_error (h : Create (list bool)) t w r
    (wd : World (list bool)) errs :
  tracer h = Some t ->
  processors h = mocks errs ->
  http.Method r = "POST" ->
  http.Get (http.Header_ r) "Content-Type" = "application/yaml" ->
  pstate wd = replicate (length errs) false ->
  exists wd' es,
    ServeHTTP h w r wd = Some (tt, wd', es)
    /\ invoked es = seq 0 (reached errs)
    /\ pstate wd' = (replicate (reached errs) true
                     ++ replicate (length errs - reached errs) false)%list
    /\ body wd' = body wd.
Proof.
  intros Ht Hps Hm Hc Hs.
  eexists _, _. split; [exact (ServeHTTP_run h t w r wd Ht)|].
  rewrite run_invoked. unfold final_world.
  rewrite (outcome_dispatch h t r wd Hm Hc), Hps. unfold mocks.
  pose proof (mocks_called (dispatch_context t r) 0 errs (body wd) (pstate wd))
    as Hcalled.
  pose proof (mocks_after_calls (dispatch_context t r) errs [] (body wd))
    as Hafter.
  cbn [length app] in Hafter. rewrite <- Hs in Hafter at 1.
  destruct (first_failure (dispatch_context t r) (mocks_from 0 errs)
              (body wd) (pstate wd)) as [[k e]|] eqn:Hff;
    rewrite Hcalled; unfold processed; cbn [body pstate drawn];
    rewrite Hafter; repeat split; reflexivity.
Qed.

End MockFacts.

Module ShapeFacts.

Import UUID.

(** The variant bits: the first digit of the ninth byte is 8, 9, a or b. *)
Lemma variant_digit (b : byte) :
  In (hex_hi (bor (band b x3f) x80)) ["8"; "9"; "a"; "b"]%char.
Proof. destruct b; vm_compute; auto 6. Qed.

#[local] Opaque hex_hi hex_lo.

Lemma String_hyphens (u : UUID) :
  String.get 8 (String u) = Some "-"%char
  /\ String.get 13 (String u) = Some "-"%char
  /\ String.get 18 (String u) = Some "-"%char
  /\ String.get 23 (String u) = Some "-"%char.
Proof.
  destruct u. rewrite UUIDFacts.String_unfold.
  cbv [hex_Encode String.append]. cbn [String.get]. auto.
Qed.

Lemma New_variant (rnd : UUID) :
  exists c, String.get 19 (String (New rnd)) = Some c
            /\ In c ["8"; "9"; "a"; "b"]%char.
Proof.
  destruct rnd. unfold New. rewrite UUIDFacts.String_unfold.
  cbv [hex_Encode String.append]. cbn [String.get].
  eexists. split; [reflexivity|apply variant_digit].
Qed.

End ShapeFacts.

Section Identifier.

Context {State : Type}.

(** X18. The identifier of a request, the one attached to the span,
    rejected requests included, is a version 4 UUID in canonical text: 36
    characters, hyphens after the 8th, 12th, 16th and 20th digit, the
    version digit [4], and a variant digit among 8, 9, a, b. *)
Theorem identifier_is_version_4 (h : Create State) t w r (wd : World State) :
  tracer h = Some t ->
  exists wd' es id,
    ServeHTTP h w r wd = Some (tt, wd', es)
    /\ drawn_ids es = [id]
    /\ In (SetAttributes
             (attribute.mkKeyValue "id" (attribute.StringValue (UUID.String id))))
         (span_calls es)
    /\ String.length (UUID.String id) = 36
    /\ (forall i, In i [8; 13; 18; 23] ->
                  String.get i (UUID.String id) = Some "-"%char)
    /\ String.get 14 (UUID.String id) = Some "4"%char
    /\ exists c, String.get 19 (UUID.String id) = Some c
                 /\ In c ["8"; "9"; "a"; "b"]%char.
Proof.
  intros Ht.
  eexists _, _, _. split; [exact (ServeHTTP_run h t w r wd Ht)|].
  split; [apply run_drawn_ids|].
  split; [rewrite run_span_calls; cbn; auto|].
  split; [apply UUIDFacts.String_length|].
  split.
  { destruct (ShapeFacts.String_hyphens (UUID.New (random wd 0)))
      as (H8 & H13 & H18 & H23).
    intros i [<-|[<-|[<-|[<-|[]]]]]; assumption. }
  split; [apply UUIDFacts.New_version|apply ShapeFacts.New_variant].
Qed.

End Identifier.

(** ** The further properties at work *)

Lemma default_tracer_is_config_witness :
  (forall opt, In opt [WithProcessors [Test.mockProcessor 0 None]] ->
               keeps_tracer opt)
  /\ tracer (NewHandler [WithProcessors [Test.mockProcessor 0 None]])
     = Some "config".
Proof.
  assert (H : forall opt, In opt [WithProcessors [Test.mockProcessor 0 None]] ->
                          keeps_tracer opt).
  { intros opt [<-|[]]. intros h. reflexivity. }
  split; [exact H|]. exact (default_tracer_is_config _ H).
Defined.

Lemma WithTracer_sets_tracer_witness :
  tracer (NewHandler ([WithTracer (Some "first")]
                      ++ WithTracer (Some "second")
                         :: [WithProcessors [Test.mockProcessor 0 None]]))
  = Some "second"
  /\ processors (NewHandler ([WithTracer (Some "first")]
                             ++ [WithTracer (State := list bool) (Some "second")]))
     = processors (NewHandler [WithTracer (State := list bool) (Some "first")])
  /\ tracer (NewHandler ([WithTracer (State := list bool) (Some "first")]
                         ++ [WithTracer None]))
     = Some "config".
Proof.
  apply (WithTracer_sets_tracer [WithTracer (Some "first")]
           [WithProcessors [Test.mockProcessor 0 None]] "second").
  intros opt [<-|[]]. intros h. reflexivity.
Defined.

Lemma WithProcessors_replaces_witness :
  processors (NewHandler ([WithProcessors [Test.mockProcessor 0 None]]
                          ++ WithProcessors
                               [Test.mockProcessor 0 None;
                                Test.mockProcessor 1 None]
                             :: [WithTracer (Some "other")]))
  = [Test.mockProcessor 0 None; Test.mockProcessor 1 None]
  /\ tracer (NewHandler ([WithProcessors [Test.mockProcessor 0 None]]
                         ++ [WithProcessors
                               [Test.mockProcessor 0 None;
                                Test.mockProcessor 1 None]]))
     = tracer (NewHandler [WithProcessors [Test.mockProcessor 0 None]]).
Proof.
  apply (WithProcessors_replaces [WithProcessors [Test.mockProcessor 0 None]]
           [WithTracer (Some "other")]
           [Test.mockProcessor 0 None; Test.mockProcessor 1 None]).
  intros opt [<-|[]]. intros h. reflexivity.
Defined.

Lemma span_started_and_ended_once_witness :
  exists wd' es mid,
    ServeHTTP Test.threeMocks Test.brokenWriter Test.yamlPost
      (Test.world Test.payload 3 Test.rnd) = Some (tt, wd', es)
    /\ es = (TracerStart "config" (http.Context_ Test.yamlPost) "CreateConfig"
             :: mid ++ [OnSpan (mkSpan "config" "CreateConfig") End_])%list
    /\ started es = ["CreateConfig"]
    /\ ends (span_calls es) = 1.
Proof.
  apply (span_started_and_ended_once Test.threeMocks "config"
           Test.brokenWriter Test.yamlPost
           (Test.world Test.payload 3 Test.rnd)).
  reflexivity.
Defined.

Lemma one_response_per_request_witness :
  exists wd' es code resp,
    ServeHTTP Test.oneMock Test.NewRecorder Test.yamlPost
      (Test.world Test.payload 1 Test.rnd) = Some (tt, wd', es)
    /\ writer_calls es =
       [http.HeaderSet "Content-Type" "application/json";
        http.WriteHeader code;
        http.Write (ResponseJSON.encode resp) None]
    /\ fixed_envelope resp = true
    /\ writes (writer_calls es) = 1.
Proof.
  apply (one_response_per_request Test.oneMock "config" Test.NewRecorder
           Test.yamlPost (Test.world Test.payload 1 Test.rnd));
    [reflexivity | intros p; reflexivity].
Defined.

Lemma status_tells_outcome_witness :
  exists wd' es,
    ServeHTTP Test.failingMock Test.NewRecorder Test.yamlPost
      (Test.world Test.payload 1 Test.rnd) = Some (tt, wd', es)
    /\ (response_status es = Some 405%Z <-> http.Method Test.yamlPost <> "POST")
    /\ (response_status es = Some 400%Z <->
        http.Method Test.yamlPost = "POST"
        /\ http.Get (http.Header_ Test.yamlPost) "Content-Type"
           <> "application/yaml")
    /\ (response_status es = Some 500%Z <->
        http.Method Test.yamlPost = "POST"
        /\ http.Get (http.Header_ Test.yamlPost) "Content-Type"
           = "application/yaml"
        /\ first_failure (dispatch_context "config" Test.yamlPost)
             (processors Test.failingMock)
             (body (Test.world Test.payload 1 Test.rnd))
             (pstate (Test.world Test.payload 1 Test.rnd)) <> None)
    /\ (response_status es = Some 200%Z <->
        http.Method Test.yamlPost = "POST"
        /\ http.Get (http.Header_ Test.yamlPost) "Content-Type"
           = "application/yaml"
        /\ first_failure (dispatch_context "config" Test.yamlPost)
             (processors Test.failingMock)
             (body (Test.world Test.payload 1 Test.rnd))
             (pstate (Test.world Test.payload 1 Test.rnd)) = None).
Proof.
  apply (status_tells_outcome Test.failingMock "config" Test.NewRecorder
           Test.yamlPost (Test.world Test.payload 1 Test.rnd)).
  reflexivity.
Defined.

Lemma processors_in_order_once_witness :
  exists wd' es n,
    ServeHTTP Test.threeMocks Test.NewRecorder Test.yamlPost
      (Test.world Test.payload 3 Test.rnd) = Some (tt, wd', es)
    /\ invoked es = seq 0 n
    /\ n <= length (processors Test.threeMocks)
    /\ NoDup (invoked es)
    /\ (n <> 0 ->
        http.Method Test.yamlPost = "POST"
        /\ http.Get (http.Header_ Test.yamlPost) "Content-Type"
           = "application/yaml").
Proof.
  apply (processors_in_order_once Test.threeMocks "config" Test.NewRecorder
           Test.yamlPost (Test.world Test.payload 3 Test.rnd)).
  reflexivity.
Defined.

Lemma processors_get_span_context_witness :
  exists wd' es,
    ServeHTTP Test.threeMocks Test.NewRecorder Test.yamlPost
      (Test.world Test.payload 3 Test.rnd) = Some (tt, wd', es)
    /\ contexts es =
       replicate (length (invoked es))
         (WithSpan (http.Context_ Test.yamlPost) "config" "CreateConfig")
    /\ ~ In (http.Context_ Test.yamlPost) (contexts es).
Proof.
  apply (processors_get_span_context Test.threeMocks "config"
           Test.NewRecorder Test.yamlPost
           (Test.world Test.payload 3 Test.rnd)).
  reflexivity.
Defined.

Lemma missing_content_type_rejected_witness :
  (http.Header_ Mocks.bareRequest !! "Content-Type" = None
   \/ http.Header_ Mocks.bareRequest !! "Content-Type" = Some [])
  /\ exists wd' es,
       ServeHTTP Test.oneMock Test.NewRecorder Mocks.bareRequest
         (Test.world Test.payload 1 Test.rnd) = Some (tt, wd', es)
       /\ response_status es = Some 400%Z
       /\ In (SetAttributes (attribute.String "content-type" EmptyString))
            (span_calls es)
       /\ invoked es = [].
Proof.
  assert (H : http.Header_ Mocks.bareRequest !! "Content-Type" = None
              \/ http.Header_ Mocks.bareRequest !! "Content-Type" = Some [])
    by (left; reflexivity).
  split; [exact H|].
  apply (missing_content_type_rejected Test.oneMock "config" Test.NewRecorder
           Mocks.bareRequest (Test.world Test.payload 1 Test.rnd));
    [reflexivity | reflexivity | exact H].
Defined.

Lemma first_content_type_decides_witness :
  http.Header_ Mocks.twoTypes !! "Content-Type"
  = Some ("application/yaml" :: ["text/plain"])
  /\ exists wd' es,
       ServeHTTP Test.oneMock Test.NewRecorder Mocks.twoTypes
         (Test.world Test.payload 1 Test.rnd) = Some (tt, wd', es)
       /\ (response_status es = Some 400%Z
           <-> "application/yaml" <> "application/yaml").
Proof.
  assert (H : http.Header_ Mocks.twoTypes !! "Content-Type"
              = Some ("application/yaml" :: ["text/plain"]))
    by (vm_compute; reflexivity).
  split; [exact H|].
  apply (first_content_type_decides Test.oneMock "config" Test.NewRecorder
           Mocks.twoTypes (Test.world Test.payload 1 Test.rnd)
           "application/yaml" ["text/plain"]);
    [reflexivity | reflexivity | exact H].
Defined.

Lemma span_errored_iff_witness :
  exists wd' es,
    ServeHTTP Test.oneMock Test.brokenWriter Test.yamlPost
      (Test.world Test.payload 1 Test.rnd) = Some (tt, wd', es)
    /\ (error_statuses (span_calls es) <> [] <->
        response_status es <> Some 200%Z
        \/ write_errors (writer_calls es) <> [])
    /\ length (error_statuses (span_calls es)) <= 2
    /\ (write_errors (writer_calls es) <> [] ->
        last (error_statuses (span_calls es))
        = Some "failed to write response").
Proof.
  apply (span_errored_iff Test.oneMock "config" Test.brokenWriter
           Test.yamlPost (Test.world Test.payload 1 Test.rnd)).
  reflexivity.
Defined.


Lemma one_identifier_per_request_witness :
  exists wd1 es1 wd2 es2,
    ServeHTTP Test.oneMock Test.NewRecorder Test.getRequest
      (Test.world Test.payload 1 Test.rnd) = Some (tt, wd1, es1)
    /\ ServeHTTP Test.oneMock Test.NewRecorder Test.yamlPost wd1
       = Some (tt, wd2, es2)
    /\ drawn_ids es1
       = [UUID.New (random (Test.world Test.payload 1 Test.rnd) 0)]
    /\ drawn_ids es2
       = [UUID.New (random (Test.world Test.payload 1 Test.rnd) 1)].
Proof.
  apply (one_identifier_per_request Test.oneMock "config" Test.NewRecorder
           Test.getRequest Test.yamlPost (Test.world Test.payload 1 Test.rnd)).
  reflexivity.
Defined.

Lemma mocks_called_up_to_first_error_witness :
  exists wd' es,
    ServeHTTP Mocks.fourMocks Test.NewRecorder Test.yamlPost
      (Test.world Test.payload 4 Test.rnd) = Some (tt, wd', es)
    /\ invoked es = seq 0 (Mocks.reached Mocks.errs4)
    /\ pstate wd' = (replicate (Mocks.reached Mocks.errs4) true
                     ++ replicate (length Mocks.errs4
                                   - Mocks.reached Mocks.errs4) false)%list
    /\ body wd' = body (Test.world Test.payload 4 Test.rnd).
Proof.
  apply (MockFacts.mocks_called_up_to_first_error Mocks.fourMocks "config"
           Test.NewRecorder Test.yamlPost
           (Test.world Test.payload 4 Test.rnd) Mocks.errs4);
    reflexivity.
Defined.

Lemma processors_share_the_body_witness :
  exists wd' es,
    ServeHTTP Mocks.drainFirst Test.NewRecorder Test.yamlPost
      (Test.world Test.payload 0 Test.rnd) = Some (tt, wd', es)
    /\ (body wd', pstate wd') =
       thread (WithSpan (http.Context_ Test.yamlPost) "config" "CreateConfig")
         (take (length (invoked es)) (processors Mocks.drainFirst))
         (body (Test.world Test.payload 0 Test.rnd),
          pstate (Test.world Test.payload 0 Test.rnd)).
Proof.
  apply (processors_share_the_body Mocks.drainFirst "config" Test.NewRecorder
           Test.yamlPost (Test.world Test.payload 0 Test.rnd));
    reflexivity.
Defined.

Lemma drained_body_stays_empty_witness :
  exists wd' es,
    ServeHTTP Mocks.drainFirst Test.NewRecorder Test.yamlPost
      (Test.world Test.payload 0 Test.rnd) = Some (tt, wd', es)
    /\ In (ProcessCall 1
             (WithSpan (http.Context_ Test.yamlPost) "config" "CreateConfig")
             (snd (Process Mocks.needsBody
                     (WithSpan (http.Context_ Test.yamlPost) "config"
                        "CreateConfig")
                     EmptyString
                     (pstate (Test.world Test.payload 0 Test.rnd)))))
         es.
Proof.
  apply (drained_body_stays_empty Mocks.drainFirst "config" Test.NewRecorder
           Test.yamlPost (Test.world Test.payload 0 Test.rnd)
           Mocks.needsBody []);
    reflexivity.
Defined.

Lemma identifier_is_version_4_witness :
  exists wd' es id,
    ServeHTTP Test.oneMock Test.NewRecorder Test.getRequest
      (Test.world Test.payload 1 Test.rnd) = Some (tt, wd', es)
    /\ drawn_ids es = [id]
    /\ In (SetAttributes
             (attribute.mkKeyValue "id" (attribute.StringValue (UUID.String id))))
         (span_calls es)
    /\ String.length (UUID.String id) = 36
    /\ (forall i, In i [8; 13; 18; 23] ->
                  String.get i (UUID.String id) = Some "-"%char)
    /\ String.get 14 (UUID.String id) = Some "4"%char
    /\ exists c, String.get 19 (UUID.String id) = Some c
                 /\ In c ["8"; "9"; "a"; "b"]%char.
Proof.
  apply (identifier_is_version_4 Test.oneMock "config" Test.NewRecorder
           Test.getRequest (Test.world Test.payload 1 Test.rnd)).
  reflexivity.
Defined.
